(** * cspc-operator start-up: a shallow embedding of [cmd/cspc-operator/app/start.go]

    The file embeds the three functions of [start.go] ([Start],
    [getClusterConfig], [getSyncInterval]) as programs over a signature of
    the external calls they make (flag, klog, client-go, the controller
    builder, os and strconv), gives those programs an executable semantics over
    an arbitrary platform, and proves the start-up sequencing and the resync
    interval properties of the specification. *)

From Stdlib Require Import ZArith List String Ascii Bool Lia.
Import ListNotations.
Local Open Scope string_scope.
Local Open Scope list_scope.
Local Open Scope Z_scope.

(** ** Machine integers

    Go's [int] is 64 bits wide on the platforms the operator is built for, and
    [int64] (the representation of [time.Duration]) always is.  Both are
    modelled as [Z] with two's complement wrap-around written out. *)

Module Int64.

Definition intSize : Z := 64.
Definition modulus : Z := 2 ^ intSize.
Definition half_modulus : Z := 2 ^ (intSize - 1).
Definition min_signed : Z := - half_modulus.
Definition max_signed : Z := half_modulus - 1.
Definition max_unsigned : Z := modulus - 1.

(** Reduction of a mathematical integer to the [int64] it is stored as. *)
Definition wrap (z : Z) : Z := (z + half_modulus) mod modulus - half_modulus.

(** Reduction to a [uint64]. *)
Definition wrapu (z : Z) : Z := z mod modulus.

Definition in_range (z : Z) : Prop := min_signed <= z <= max_signed.

Definition add (a b : Z) : Z := wrap (a + b).
Definition mul (a b : Z) : Z := wrap (a * b).
Definition neg (a : Z) : Z := wrap (- a).

End Int64.

(** ** Errors

    [error] values: the [*strconv.NumError] of package strconv, errors of the
    other libraries (opaque, identified by their message), and the wrapping
    of github.com/pkg/errors. *)

Inductive numErr : Type :=
| ErrSyntax
| ErrRange.

Inductive error : Type :=
| NumError (Func Num : string) (Err : numErr)
| ErrorString (msg : string)
| withMessage (cause : error) (msg : string).

(** [errors.Wrap(err, message)]: nil for a nil [err], otherwise [err]
    annotated with [message].  [errors.Wrapf] with a format without verbs is
    the same function. *)
Definition Wrap (err : option error) (message : string) : option error :=
  match err with
  | None => None
  | Some e => Some (withMessage e message)
  end.

Definition Wrapf := Wrap.

(** ** package strconv

    [strconv.Atoi] belongs to the Go standard library.  It is embedded here
    for base 10 and the 64-bit [int]: the fast path for short strings, and
    the slow path through [ParseInt] and [ParseUint]. *)

Module strconv.

Definition bytes_of (s : string) : list Z :=
  map (fun c => Z.of_N (N_of_ascii c)) (list_ascii_of_string s).

Definition byte_minus : Z := 45.   (* '-' *)
Definition byte_plus : Z := 43.    (* '+' *)
Definition byte_0 : Z := 48.       (* '0' *)
Definition byte_9 : Z := 57.       (* '9' *)

(** Subtraction on [byte], which wraps modulo 256. *)
Definition byte_sub (a b : Z) : Z := (a - b) mod 256.

Definition syntaxError (fn str : string) : error := NumError fn str ErrSyntax.
Definition rangeError (fn str : string) : error := NumError fn str ErrRange.

(** The digit loop of the fast path of [Atoi]:
    [ch -= '0'; if ch > 9 { error }; n = n*10 + int(ch)]. *)
Fixpoint atoi_loop (bs : list Z) (n : Z) : option Z :=
  match bs with
  | [] => Some n
  | ch :: rest =>
      let ch' := byte_sub ch byte_0 in
      if 9 <? ch' then None
      else atoi_loop rest (Int64.add (Int64.mul n 10) ch')
  end.

(** The digit loop of [ParseUint] in base 10 with [bitSize] 64.  The result
    is the value and the kind of error, if any. *)
Definition parseUint_cutoff : Z := Int64.max_unsigned / 10 + 1.

Fixpoint parseUint_loop (bs : list Z) (n : Z) : Z * option numErr :=
  match bs with
  | [] => (n, None)
  | c :: rest =>
      if (byte_0 <=? c) && (c <=? byte_9) then
        let d := c - byte_0 in
        if parseUint_cutoff <=? n then (Int64.max_unsigned, Some ErrRange)
        else
          let n := Int64.wrapu (n * 10) in
          let n1 := Int64.wrapu (n + d) in
          if (n1 <? n) || (Int64.max_unsigned <? n1)
          then (Int64.max_unsigned, Some ErrRange)
          else parseUint_loop rest n1
      else (0, Some ErrSyntax)
  end.

Definition ParseUint (bs : list Z) : Z * option numErr :=
  match bs with
  | [] => (0, Some ErrSyntax)
  | _ => parseUint_loop bs 0
  end.

(** [ParseInt(s, 10, 0)]. *)
Definition ParseInt (s : string) : Z * option error :=
  let fnParseInt := "ParseInt" in
  match bytes_of s with
  | [] => (0, Some (syntaxError fnParseInt s))
  | c :: rest =>
      let neg := c =? byte_minus in
      let body := if (c =? byte_plus) || (c =? byte_minus) then rest else c :: rest in
      match ParseUint body with
      | (_, Some ErrSyntax) => (0, Some (syntaxError fnParseInt s))
      | (un, _) =>
          let cutoff := Int64.half_modulus in
          if negb neg && (cutoff <=? un) then
            (cutoff - 1, Some (rangeError fnParseInt s))
          else if neg && (cutoff <? un) then
            (- cutoff, Some (rangeError fnParseInt s))
          else
            let n := Int64.wrap un in
            (if neg then Int64.neg n else n, None)
      end
  end.

Definition Atoi (s : string) : Z * option error :=
  let fnAtoi := "Atoi" in
  let bs := bytes_of s in
  let sLen := Z.of_nat (List.length bs) in
  if (0 <? sLen) && (sLen <? 19) then
    match bs with
    | [] => (0, Some (syntaxError fnAtoi s))
    | c :: rest =>
        let signed := (c =? byte_minus) || (c =? byte_plus) in
        let body := if signed then rest else c :: rest in
        if signed && (Z.of_nat (List.length body) <? 1) then
          (0, Some (syntaxError fnAtoi s))
        else
          match atoi_loop body 0 with
          | None => (0, Some (syntaxError fnAtoi s))
          | Some n => (if c =? byte_minus then Int64.neg n else n, None)
          end
    end
  else
    match ParseInt s with
    | (i64, Some (NumError _ num e)) => (i64, Some (NumError fnAtoi num e))
    | r => r
    end.

End strconv.

(** ** package time *)

Module time.

(** [time.Duration] is an [int64] count of nanoseconds. *)
Definition Duration : Type := Z.

Definition Nanosecond : Duration := 1.
Definition Microsecond : Duration := 1000 * Nanosecond.
Definition Millisecond : Duration := 1000 * Microsecond.
Definition Second : Duration := 1000 * Millisecond.

(** The conversion [time.Duration(i)] of an [int]. *)
Definition of_int (i : Z) : Duration := Int64.wrap i.

(** [d1 * d2] on [Duration]. *)
Definition mul (d1 d2 : Duration) : Duration := Int64.mul d1 d2.

(** The duration of exactly [n] seconds, as a mathematical quantity. *)
Definition seconds (n : Z) : Z := n * 1000000000.

End time.

(** [ResyncInterval] is sync interval of the watcher. *)
Definition ResyncInterval : time.Duration := 30 * time.Second.

(** ** Handles of the objects the start-up code passes around

    Each is an opaque reference; the start-up code never looks inside one. *)

Inductive StopCh : Type := stopCh_ref (id : nat).             (* <-chan struct{} *)
Inductive Config : Type := config_ref (id : nat).             (* *rest.Config *)
Inductive KubeClient : Type := kubeClient_ref (id : nat).     (* *kubernetes.Clientset *)
Inductive OpenEBSClient : Type := openebsClient_ref (id : nat). (* *clientset.Clientset *)
Inductive NDMClient : Type := ndmClient_ref (id : nat).       (* *ndmclientset.Clientset *)
Inductive KubeInformerFactory : Type := kubeFactory_ref (id : nat).
Inductive SPCInformerFactory : Type := spcFactory_ref (id : nat).
Inductive ControllerBuilder : Type := builder_ref (id : nat).
Inductive Controller : Type := controller_ref (id : nat).

(** ** The external calls of [start.go]

    [Cmd R] is a call whose result has type [R].  A Go function returning
    [(T, error)] has result type [T * option error], [None] being nil. *)

Inductive Cmd : Type -> Type :=
(* package signals *)
| SetupSignalHandler : Cmd StopCh
(* packages klog and flag *)
| InitFlags : Cmd unit
| flagSet (name value : string) : Cmd (option error)
| flagParse : Cmd unit
| kubeconfigFlag : Cmd string                 (* the read [*kubeconfig] *)
| V2Info (msg : string) : Cmd unit
| Warningf (format : string) (resyncInterval : Z) (dflt : time.Duration) : Cmd unit
(* package os *)
| Getenv (key : string) : Cmd string
(* client-go *)
| BuildConfigFromFlags (masterUrl kubeconfigPath : string) : Cmd (Config * option error)
| InClusterConfig : Cmd (Config * option error)
| kubernetesNewForConfig (cfg : Config) : Cmd (KubeClient * option error)
| clientsetNewForConfig (cfg : Config) : Cmd (OpenEBSClient * option error)
| ndmclientsetNewForConfig (cfg : Config) : Cmd (NDMClient * option error)
| kubeNewSharedInformerFactory (c : KubeClient) (defaultResync : time.Duration)
  : Cmd KubeInformerFactory
| spcNewSharedInformerFactory (c : OpenEBSClient) (defaultResync : time.Duration)
  : Cmd SPCInformerFactory
(* the controller builder of package app *)
| NewControllerBuilder : Cmd ControllerBuilder
| withKubeClient (cb : ControllerBuilder) (c : KubeClient) : Cmd ControllerBuilder
| withOpenEBSClient (cb : ControllerBuilder) (c : OpenEBSClient) : Cmd ControllerBuilder
| withNDMClient (cb : ControllerBuilder) (c : NDMClient) : Cmd ControllerBuilder
| withCSPCSynced (cb : ControllerBuilder) (f : SPCInformerFactory) : Cmd ControllerBuilder
| withCSPCLister (cb : ControllerBuilder) (f : SPCInformerFactory) : Cmd ControllerBuilder
| withRecorder (cb : ControllerBuilder) (c : KubeClient) : Cmd ControllerBuilder
| withEventHandler (cb : ControllerBuilder) (f : SPCInformerFactory) : Cmd ControllerBuilder
| withWorkqueueRateLimiting (cb : ControllerBuilder) : Cmd ControllerBuilder
| Build (cb : ControllerBuilder) : Cmd (Controller * option error)
(* [go f.Start(stopCh)]: the goroutine running [Start] is launched here *)
| goKubeFactoryStart (f : KubeInformerFactory) (stopCh : StopCh) : Cmd unit
| goSpcFactoryStart (f : SPCInformerFactory) (stopCh : StopCh) : Cmd unit
(* the blocking run loop *)
| controllerRun (c : Controller) (threadiness : Z) (stopCh : StopCh) : Cmd (option error).

(** ** Programs over the external calls *)

Inductive Prog (A : Type) : Type :=
| Ret (a : A)
| Vis {R : Type} (c : Cmd R) (k : R -> Prog A).

Arguments Ret {A} a.
Arguments Vis {A R} c k.

Fixpoint bind {A B : Type} (p : Prog A) (f : A -> Prog B) : Prog B :=
  match p with
  | Ret a => f a
  | Vis c k => Vis c (fun r => bind (k r) f)
  end.

Definition call {R : Type} (c : Cmd R) : Prog R := Vis c Ret.

Declare Scope prog_scope.
Delimit Scope prog_scope with prog.
Notation "x <- p ;; q" := (bind p (fun x => q))
  (at level 61, p at next level, right associativity) : prog_scope.
Notation "' pat <- p ;; q" := (bind p (fun x => match x with pat => q end))
  (at level 61, pat pattern, p at next level, right associativity) : prog_scope.
Notation "p ;; q" := (bind p (fun _ => q))
  (at level 61, right associativity) : prog_scope.
Local Open Scope prog_scope.

(** ** The code of [start.go] *)

Definition is_nil (err : option error) : bool :=
  match err with
  | None => true
  | Some _ => false
  end.

(** [getSyncInterval] gets the resync interval from environment variable.
    If missing or zero then default to 30 seconds
    otherwise return the obtained value *)
Definition getSyncInterval : Prog time.Duration :=
  v <- call (Getenv "RESYNC_INTERVAL") ;;
  let '(resyncInterval, err) := strconv.Atoi v in
  if negb (is_nil err) || (resyncInterval =? 0) then
    call (Warningf
            "Incorrect resync interval %q obtained from env, defaulting to %q seconds"
            resyncInterval ResyncInterval) ;;
    Ret ResyncInterval
  else
    Ret (time.mul (time.of_int resyncInterval) time.Second).

(** [getClusterConfig] return the config for k8s. *)
Definition getClusterConfig (kubeconfig : string) : Prog (Config * option error) :=
  if negb (kubeconfig =? "")%string then
    call (BuildConfigFromFlags "" kubeconfig)
  else
    call (V2Info "Kubeconfig flag is empty") ;;
    call InClusterConfig.

(** [Start] starts the cstor-operator. *)
Definition Start : Prog (option error) :=
  (* set up signals so we handle the first shutdown signal gracefully *)
  stopCh <- call SetupSignalHandler ;;
  call InitFlags ;;
  err <- call (flagSet "logtostderr" "true") ;;
  if negb (is_nil err) then
    Ret (Wrap err "failed to set logtostderr flag")
  else
  call flagParse ;;

  kubeconfig <- call kubeconfigFlag ;;
  '(cfg, err) <- getClusterConfig kubeconfig ;;
  if negb (is_nil err) then
    Ret (Wrap err "error building kubeconfig")
  else

  (* Building Kubernetes Clientset *)
  '(kubeClient, err) <- call (kubernetesNewForConfig cfg) ;;
  if negb (is_nil err) then
    Ret (Wrap err "error building kubernetes clientset")
  else

  (* Building OpenEBS Clientset *)
  '(openebsClient, err) <- call (clientsetNewForConfig cfg) ;;
  if negb (is_nil err) then
    Ret (Wrap err "error building openebs clientset")
  else

  (* Building NDM Clientset *)
  '(ndmClient, err) <- call (ndmclientsetNewForConfig cfg) ;;
  if negb (is_nil err) then
    Ret (Wrap err "error building ndm clientset")
  else

  d1 <- getSyncInterval ;;
  kubeInformerFactory <- call (kubeNewSharedInformerFactory kubeClient d1) ;;
  d2 <- getSyncInterval ;;
  spcInformerFactory <- call (spcNewSharedInformerFactory openebsClient d2) ;;

  cb <- call NewControllerBuilder ;;
  cb <- call (withKubeClient cb kubeClient) ;;
  cb <- call (withOpenEBSClient cb openebsClient) ;;
  cb <- call (withNDMClient cb ndmClient) ;;
  cb <- call (withCSPCSynced cb spcInformerFactory) ;;
  cb <- call (withCSPCLister cb spcInformerFactory) ;;
  cb <- call (withRecorder cb kubeClient) ;;
  cb <- call (withEventHandler cb spcInformerFactory) ;;
  cb <- call (withWorkqueueRateLimiting cb) ;;
  '(controller, err) <- call (Build cb) ;;

  if negb (is_nil err) then
    Ret (Wrapf err "error building controller instance")
  else

  call (goKubeFactoryStart kubeInformerFactory stopCh) ;;
  call (goSpcFactoryStart spcInformerFactory stopCh) ;;

  (* Threadiness defines the number of workers to be launched in Run function *)
  call (controllerRun controller 2 stopCh).

(** ** Platforms and runs

    A platform is a state of the world together with the behaviour of every
    external call in it.  The process environment is part of the world, and
    [os.Getenv] reads it: the value of the variable, which is empty when the
    variable is not present.  Every other call is answered by the platform,
    and may change the world, its environment included. *)

Record Platform : Type := {
  World : Type;
  environ : World -> string -> option string;
  extern : forall R : Type, Cmd R -> World -> R * World
}.

Definition os_Getenv (P : Platform) (w : World P) (key : string) : string :=
  match environ P w key with
  | Some v => v
  | None => ""
  end.

Definition perform (P : Platform) {R : Type} (c : Cmd R) (w : World P) : R * World P :=
  match c in Cmd R0 return Cmd R0 -> R0 * World P with
  | Getenv key => fun _ => (os_Getenv P w key, w)
  | _ => fun c0 => extern P _ c0 w
  end c.

(** A call that was made, with its arguments and the result it returned. *)
Module Ev.
Inductive Event : Type :=
| SetupSignalHandler (ret : StopCh)
| InitFlags
| flagSet (name value : string) (err : option error)
| flagParse
| kubeconfigFlag (ret : string)
| V2Info (msg : string)
| Warningf (format : string) (resyncInterval : Z) (dflt : time.Duration)
| Getenv (key : string) (ret : string)
| BuildConfigFromFlags (masterUrl kubeconfigPath : string) (cfg : Config) (err : option error)
| InClusterConfig (cfg : Config) (err : option error)
| kubernetesNewForConfig (cfg : Config) (ret : KubeClient) (err : option error)
| clientsetNewForConfig (cfg : Config) (ret : OpenEBSClient) (err : option error)
| ndmclientsetNewForConfig (cfg : Config) (ret : NDMClient) (err : option error)
| kubeNewSharedInformerFactory (c : KubeClient) (defaultResync : time.Duration)
    (ret : KubeInformerFactory)
| spcNewSharedInformerFactory (c : OpenEBSClient) (defaultResync : time.Duration)
    (ret : SPCInformerFactory)
| NewControllerBuilder (ret : ControllerBuilder)
| withKubeClient (cb : ControllerBuilder) (c : KubeClient) (ret : ControllerBuilder)
| withOpenEBSClient (cb : ControllerBuilder) (c : OpenEBSClient) (ret : ControllerBuilder)
| withNDMClient (cb : ControllerBuilder) (c : NDMClient) (ret : ControllerBuilder)
| withCSPCSynced (cb : ControllerBuilder) (f : SPCInformerFactory) (ret : ControllerBuilder)
| withCSPCLister (cb : ControllerBuilder) (f : SPCInformerFactory) (ret : ControllerBuilder)
| withRecorder (cb : ControllerBuilder) (c : KubeClient) (ret : ControllerBuilder)
| withEventHandler (cb : ControllerBuilder) (f : SPCInformerFactory) (ret : ControllerBuilder)
| withWorkqueueRateLimiting (cb : ControllerBuilder) (ret : ControllerBuilder)
| Build (cb : ControllerBuilder) (ret : Controller) (err : option error)
| goKubeFactoryStart (f : KubeInformerFactory) (stopCh : StopCh)
| goSpcFactoryStart (f : SPCInformerFactory) (stopCh : StopCh)
| controllerRun (c : Controller) (threadiness : Z) (stopCh : StopCh) (err : option error).
End Ev.

Definition event_of {R : Type} (c : Cmd R) : R -> Ev.Event :=
  match c in Cmd R0 return R0 -> Ev.Event with
  | SetupSignalHandler => fun r => Ev.SetupSignalHandler r
  | InitFlags => fun _ => Ev.InitFlags
  | flagSet name value => fun r => Ev.flagSet name value r
  | flagParse => fun _ => Ev.flagParse
  | kubeconfigFlag => fun r => Ev.kubeconfigFlag r
  | V2Info msg => fun _ => Ev.V2Info msg
  | Warningf format i d => fun _ => Ev.Warningf format i d
  | Getenv key => fun r => Ev.Getenv key r
  | BuildConfigFromFlags m k => fun r => Ev.BuildConfigFromFlags m k (fst r) (snd r)
  | InClusterConfig => fun r => Ev.InClusterConfig (fst r) (snd r)
  | kubernetesNewForConfig cfg => fun r => Ev.kubernetesNewForConfig cfg (fst r) (snd r)
  | clientsetNewForConfig cfg => fun r => Ev.clientsetNewForConfig cfg (fst r) (snd r)
  | ndmclientsetNewForConfig cfg => fun r => Ev.ndmclientsetNewForConfig cfg (fst r) (snd r)
  | kubeNewSharedInformerFactory c d => fun r => Ev.kubeNewSharedInformerFactory c d r
  | spcNewSharedInformerFactory c d => fun r => Ev.spcNewSharedInformerFactory c d r
  | NewControllerBuilder => fun r => Ev.NewControllerBuilder r
  | withKubeClient cb c => fun r => Ev.withKubeClient cb c r
  | withOpenEBSClient cb c => fun r => Ev.withOpenEBSClient cb c r
  | withNDMClient cb c => fun r => Ev.withNDMClient cb c r
  | withCSPCSynced cb f => fun r => Ev.withCSPCSynced cb f r
  | withCSPCLister cb f => fun r => Ev.withCSPCLister cb f r
  | withRecorder cb c => fun r => Ev.withRecorder cb c r
  | withEventHandler cb f => fun r => Ev.withEventHandler cb f r
  | withWorkqueueRateLimiting cb => fun r => Ev.withWorkqueueRateLimiting cb r
  | Build cb => fun r => Ev.Build cb (fst r) (snd r)
  | goKubeFactoryStart f ch => fun _ => Ev.goKubeFactoryStart f ch
  | goSpcFactoryStart f ch => fun _ => Ev.goSpcFactoryStart f ch
  | controllerRun c n ch => fun r => Ev.controllerRun c n ch r
  end.

(** One step of a run: the world the call was made in, and the call. *)
Record Step (P : Platform) : Type := {
  pre : World P;
  made : Ev.Event
}.

Arguments pre {P} s.
Arguments made {P} s.

Record Outcome (P : Platform) (A : Type) : Type := {
  result : A;
  final : World P;
  trace : list (Step P)
}.

Arguments result {P A} o.
Arguments final {P A} o.
Arguments trace {P A} o.

Fixpoint run (P : Platform) {A : Type} (p : Prog A) (w : World P) : Outcome P A :=
  match p with
  | Ret a => {| result := a; final := w; trace := [] |}
  | Vis c k =>
      let (r, w') := perform P c w in
      match run P (k r) w' with
      | {| result := a; final := wf; trace := t |} =>
          {| result := a;
             final := wf;
             trace := {| pre := w; made := event_of c r |} :: t |}
      end
  end.

(** The calls of a run, in the order they were made. *)
Definition calls {P : Platform} {A : Type} (o : Outcome P A) : list Ev.Event :=
  map made (trace o).

(** *** Kinds of calls *)

(** Launching [Start] on an informer factory. *)
Definition is_factory_start (e : Ev.Event) : bool :=
  match e with
  | Ev.goKubeFactoryStart _ _ | Ev.goSpcFactoryStart _ _ => true
  | _ => false
  end.

(** Creating an informer factory. *)
Definition is_factory_new (e : Ev.Event) : bool :=
  match e with
  | Ev.kubeNewSharedInformerFactory _ _ _ | Ev.spcNewSharedInformerFactory _ _ _ => true
  | _ => false
  end.

(** Constructing one of the three API clients. *)
Definition is_client_new (e : Ev.Event) : bool :=
  match e with
  | Ev.kubernetesNewForConfig _ _ _
  | Ev.clientsetNewForConfig _ _ _
  | Ev.ndmclientsetNewForConfig _ _ _ => true
  | _ => false
  end.

(** A step of the controller builder chain, [Build] included. *)
Definition is_builder_step (e : Ev.Event) : bool :=
  match e with
  | Ev.NewControllerBuilder _
  | Ev.withKubeClient _ _ _ | Ev.withOpenEBSClient _ _ _ | Ev.withNDMClient _ _ _
  | Ev.withCSPCSynced _ _ _ | Ev.withCSPCLister _ _ _ | Ev.withRecorder _ _ _
  | Ev.withEventHandler _ _ _ | Ev.withWorkqueueRateLimiting _ _
  | Ev.Build _ _ _ => true
  | _ => false
  end.



(** The result of a call of [getClusterConfig], which is the result of
    the client-go call it ends with. *)
Definition cluster_config_result (e : Ev.Event) : option (Config * option error) :=
  match e with
  | Ev.BuildConfigFromFlags _ _ cfg err | Ev.InClusterConfig cfg err => Some (cfg, err)
  | _ => None
  end.

(** Emitting a warning. *)
Definition is_warning (e : Ev.Event) : bool :=
  match e with
  | Ev.Warningf _ _ _ => true
  | _ => false
  end.

(** ** A scripted platform

    A platform whose world is a script: the environment, the value of the
    [-kubeconfig] flag, and the error (or nil) each fallible call returns.
    No call changes the world. *)

Record Script : Type := {
  env : list (string * string);
  kubeconfig_value : string;
  flagSet_err : option error;
  config_err : option error;
  kube_err : option error;
  openebs_err : option error;
  ndm_err : option error;
  build_err : option error;
  run_err : option error
}.

Fixpoint lookup (key : string) (l : list (string * string)) : option string :=
  match l with
  | [] => None
  | (k, v) :: rest => if (k =? key)%string then Some v else lookup key rest
  end.

Definition scripted_extern (R : Type) (c : Cmd R) (w : Script) : R * Script :=
  (match c in Cmd R0 return R0 with
   | SetupSignalHandler => stopCh_ref 1
   | InitFlags => tt
   | flagSet _ _ => flagSet_err w
   | flagParse => tt
   | kubeconfigFlag => kubeconfig_value w
   | V2Info _ => tt
   | Warningf _ _ _ => tt
   | Getenv key => match lookup key (env w) with Some v => v | None => "" end
   | BuildConfigFromFlags _ _ => (config_ref 1, config_err w)
   | InClusterConfig => (config_ref 2, config_err w)
   | kubernetesNewForConfig _ => (kubeClient_ref 1, kube_err w)
   | clientsetNewForConfig _ => (openebsClient_ref 1, openebs_err w)
   | ndmclientsetNewForConfig _ => (ndmClient_ref 1, ndm_err w)
   | kubeNewSharedInformerFactory _ _ => kubeFactory_ref 1
   | spcNewSharedInformerFactory _ _ => spcFactory_ref 1
   | NewControllerBuilder => builder_ref 0
   | withKubeClient (builder_ref n) _ => builder_ref (S n)
   | withOpenEBSClient (builder_ref n) _ => builder_ref (S n)
   | withNDMClient (builder_ref n) _ => builder_ref (S n)
   | withCSPCSynced (builder_ref n) _ => builder_ref (S n)
   | withCSPCLister (builder_ref n) _ => builder_ref (S n)
   | withRecorder (builder_ref n) _ => builder_ref (S n)
   | withEventHandler (builder_ref n) _ => builder_ref (S n)
   | withWorkqueueRateLimiting (builder_ref n) => builder_ref (S n)
   | Build _ => (controller_ref 1, build_err w)
   | goKubeFactoryStart _ _ => tt
   | goSpcFactoryStart _ _ => tt
   | controllerRun _ _ _ => run_err w
   end, w).

Definition scripted : Platform := {|
  World := Script;
  environ := fun w key => lookup key (env w);
  extern := scripted_extern
|}.

(** The script of a start-up in which nothing fails. *)
Definition healthy (e : list (string * string)) (kubeconfig : string) : Script := {|
  env := e;
  kubeconfig_value := kubeconfig;
  flagSet_err := None;
  config_err := None;
  kube_err := None;
  openebs_err := None;
  ndm_err := None;
  build_err := None;
  run_err := None
|}.

(** The script of a start-up in which one stage fails with the error [e]:
    stage 0 is [flag.Set], 1 the cluster configuration, 2 to 4 the three
    clients, 5 [Build] and 6 [Run]. *)
Definition fails_at (stage : nat) (e : error) : Script :=
  let at_stage n := if Nat.eqb stage n then Some e else None in
  {| env := [];
     kubeconfig_value := "";
     flagSet_err := at_stage 0%nat;
     config_err := at_stage 1%nat;
     kube_err := at_stage 2%nat;
     openebs_err := at_stage 3%nat;
     ndm_err := at_stage 4%nat;
     build_err := at_stage 5%nat;
     run_err := at_stage 6%nat |}.

(** A platform in which creating the first informer factory rewrites
    [RESYNC_INTERVAL]: the world is the environment alone. *)
Definition drifting_extern (R : Type) (c : Cmd R) (w : list (string * string))
  : R * list (string * string) :=
  let (r, _) := scripted_extern R c (healthy w "") in
  match c with
  | kubeNewSharedInformerFactory _ _ => (r, ("RESYNC_INTERVAL", "7") :: w)
  | _ => (r, w)
  end.

Definition drifting : Platform := {|
  World := list (string * string);
  environ := fun w key => lookup key w;
  extern := drifting_extern
|}.

(** ** Notions of the specification *)

(** A string is numeric when it is an optional sign followed by a non-empty
    sequence of decimal digits. *)
Definition is_digit (b : Z) : bool := (48 <=? b) && (b <=? 57).

Definition all_digits (bs : list Z) : bool :=
  match bs with
  | [] => false
  | _ => forallb is_digit bs
  end.

Definition numeric (s : string) : bool :=
  match strconv.bytes_of s with
  | [] => false
  | c :: rest =>
      if (c =? 45) || (c =? 43) then all_digits rest else all_digits (c :: rest)
  end.

(** The value of a sequence of decimal digits read after the value [n], and
    the integer a numeric string denotes. *)
Definition digits_from (bs : list Z) (n : Z) : Z :=
  fold_left (fun n b => n * 10 + (b - 48)) bs n.

Definition decimal_value (s : string) : Z :=
  match strconv.bytes_of s with
  | [] => 0
  | c :: rest =>
      if c =? 45 then - digits_from rest 0
      else if c =? 43 then digits_from rest 0
      else digits_from (c :: rest) 0
  end.

(** The string [s] parses to the integer [N]. *)
Definition parses_to (s : string) (N : Z) : Prop :=
  numeric s = true /\ decimal_value s = N.



(** The worlds in which the environment was read during a run, in order. *)
Definition getenv_worlds {P : Platform} (t : list (Step P)) : list (World P) :=
  flat_map (fun s => match made s with Ev.Getenv _ _ => [pre s] | _ => [] end) t.

(** The completed controller builder chain: every step receives the builder
    the previous one returned, and [Build] returns without error. *)
Definition builder_chain (t : list Ev.Event) : Prop :=
  exists kc oc nc f cb0 cb1 cb2 cb3 cb4 cb5 cb6 cb7 cb8 ctl,
    filter is_builder_step t =
    [ Ev.NewControllerBuilder cb0;
      Ev.withKubeClient cb0 kc cb1;
      Ev.withOpenEBSClient cb1 oc cb2;
      Ev.withNDMClient cb2 nc cb3;
      Ev.withCSPCSynced cb3 f cb4;
      Ev.withCSPCLister cb4 f cb5;
      Ev.withRecorder cb5 kc cb6;
      Ev.withEventHandler cb6 f cb7;
      Ev.withWorkqueueRateLimiting cb7 cb8;
      Ev.Build cb8 ctl None ].

(** The fully successful start-up path: the cluster configuration was
    resolved, the three clients were built and the controller was built. *)
Definition startup_succeeded (t : list Ev.Event) : Prop :=
  (exists c cfg, In c t /\ cluster_config_result c = Some (cfg, None))
  /\ (exists cfg kc, In (Ev.kubernetesNewForConfig cfg kc None) t)
  /\ (exists cfg oc, In (Ev.clientsetNewForConfig cfg oc None) t)
  /\ (exists cfg nc, In (Ev.ndmclientsetNewForConfig cfg nc None) t)
  /\ (exists cb ctl, In (Ev.Build cb ctl None) t).

(** The non-nil error a fallible call returned. *)
Definition failure (e : Ev.Event) : option error :=
  match e with
  | Ev.flagSet _ _ (Some err)
  | Ev.BuildConfigFromFlags _ _ _ (Some err)
  | Ev.InClusterConfig _ (Some err)
  | Ev.kubernetesNewForConfig _ _ (Some err)
  | Ev.clientsetNewForConfig _ _ (Some err)
  | Ev.ndmclientsetNewForConfig _ _ (Some err)
  | Ev.Build _ _ (Some err)
  | Ev.controllerRun _ _ _ (Some err) => Some err
  | _ => None
  end.

(** The configuration a client constructor is given. *)
Definition client_config (e : Ev.Event) : option Config :=
  match e with
  | Ev.kubernetesNewForConfig cfg _ _
  | Ev.clientsetNewForConfig cfg _ _
  | Ev.ndmclientsetNewForConfig cfg _ _ => Some cfg
  | _ => None
  end.

Arguments strconv.Atoi : simpl never.
Arguments time.mul : simpl never.
Arguments time.of_int : simpl never.
Arguments os_Getenv : simpl never.
Arguments ResyncInterval : simpl never.
Arguments String.eqb : simpl never.

(** * Properties *)

(** ** Machine integers *)

Lemma wrap_in_range (z : Z) : Int64.in_range (Int64.wrap z).
Proof.
  unfold Int64.in_range, Int64.wrap, Int64.min_signed, Int64.max_signed.
  change Int64.half_modulus with 9223372036854775808.
  change Int64.modulus with 18446744073709551616.
  pose proof (Z.mod_pos_bound (z + 9223372036854775808) 18446744073709551616).
  lia.
Qed.

Lemma wrap_id (z : Z) : Int64.in_range z -> Int64.wrap z = z.
Proof.
  unfold Int64.in_range, Int64.wrap, Int64.min_signed, Int64.max_signed.
  change Int64.half_modulus with 9223372036854775808.
  change Int64.modulus with 18446744073709551616.
  intros H. rewrite Z.mod_small; lia.
Qed.

Lemma wrap_congruent (z : Z) : exists k, Int64.wrap z = z + k * Int64.modulus.
Proof.
  exists (- ((z + Int64.half_modulus) / Int64.modulus)).
  unfold Int64.wrap.
  pose proof (Z.div_mod (z + Int64.half_modulus) Int64.modulus) as H.
  change Int64.modulus with 18446744073709551616 in *. lia.
Qed.

Lemma wrap_plus_modulus (z k : Z) : Int64.wrap (z + k * Int64.modulus) = Int64.wrap z.
Proof.
  unfold Int64.wrap.
  replace (z + k * Int64.modulus + Int64.half_modulus)
    with (z + Int64.half_modulus + k * Int64.modulus) by ring.
  rewrite Z_mod_plus_full. reflexivity.
Qed.

(** Converting to 64 bits before a multiplication or after it is the same. *)
Lemma wrap_mul_wrap_l (a b : Z) : Int64.wrap (Int64.wrap a * b) = Int64.wrap (a * b).
Proof.
  destruct (wrap_congruent a) as [k ->].
  replace ((a + k * Int64.modulus) * b) with (a * b + (k * b) * Int64.modulus) by ring.
  apply wrap_plus_modulus.
Qed.

(** Multiplying a count of seconds by [time.Second] is exact as long as the
    product fits an [int64], which is the case between -9223372036 and
    9223372036 seconds. *)
Lemma seconds_exact (n : Z) :
  -9223372036 <= n <= 9223372036 ->
  time.mul (time.of_int n) time.Second = time.seconds n.
Proof.
  intros H. unfold time.mul, time.of_int, Int64.mul, time.seconds.
  rewrite (wrap_id n).
  - apply wrap_id.
    unfold Int64.in_range, Int64.min_signed, Int64.max_signed.
    change time.Second with 1000000000.
    change Int64.half_modulus with 9223372036854775808. lia.
  - unfold Int64.in_range, Int64.min_signed, Int64.max_signed.
    change Int64.half_modulus with 9223372036854775808. lia.
Qed.

Lemma ResyncInterval_seconds : ResyncInterval = time.seconds 30.
Proof. reflexivity. Qed.

(** ** strconv *)

Example Atoi_42 : strconv.Atoi "42" = (42, None).
Proof. reflexivity. Qed.

Example Atoi_minus_7 : strconv.Atoi "-7" = (-7, None).
Proof. reflexivity. Qed.

Example Atoi_empty : strconv.Atoi "" = (0, Some (NumError "Atoi" "" ErrSyntax)).
Proof. reflexivity. Qed.

Example Atoi_above_max :
  strconv.Atoi "9223372036854775808"
  = (9223372036854775807, Some (NumError "Atoi" "9223372036854775808" ErrRange)).
Proof. vm_compute. reflexivity. Qed.

Example Atoi_min : strconv.Atoi "-9223372036854775808" = (-9223372036854775808, None).
Proof. vm_compute. reflexivity. Qed.

Lemma bytes_of_range (s : string) :
  Forall (fun b => 0 <= b < 256) (strconv.bytes_of s).
Proof.
  unfold strconv.bytes_of. apply Forall_forall. intros b Hb.
  apply in_map_iff in Hb. destruct Hb as (c & <- & _).
  pose proof (N_ascii_bounded c) as Hc. lia.
Qed.

(** A byte that is not a digit stops the digit loop of the fast path. *)
Lemma atoi_loop_not_digits (bs : list Z) (n : Z) :
  Forall (fun b => 0 <= b < 256) bs ->
  forallb is_digit bs = false ->
  strconv.atoi_loop bs n = None.
Proof.
  revert n. induction bs as [| b bs IH]; intros n Hr Hd.
  - discriminate Hd.
  - inversion Hr as [| ? ? Hb Hbs]; subst.
    cbn [forallb] in Hd. cbn [strconv.atoi_loop].
    unfold strconv.byte_sub, strconv.byte_0.
    destruct (is_digit b) eqn:Eb.
    + cbn [andb] in Hd.
      unfold is_digit in Eb. apply andb_prop in Eb. destruct Eb as [E1 E2].
      apply Z.leb_le in E1, E2.
      rewrite Z.mod_small by lia.
      destruct (9 <? b - 48) eqn:E9; [apply Z.ltb_lt in E9; lia |].
      apply IH; assumption.
    + unfold is_digit in Eb. apply andb_false_iff in Eb.
      assert (H9 : 9 < (b - 48) mod 256).
      { destruct Eb as [E | E]; apply Z.leb_gt in E.
        - replace ((b - 48) mod 256) with (b + 208); [lia |].
          apply (Z.mod_unique_pos _ _ (-1)); lia.
        - rewrite Z.mod_small by lia. lia. }
      apply Z.ltb_lt in H9. rewrite H9. reflexivity.
Qed.

(** The digit loop of [ParseUint] reports an error on a byte that is not a
    digit, unless it has reported a range error before reaching it. *)
Lemma parseUint_loop_not_digits (bs : list Z) (n : Z) :
  forallb is_digit bs = false ->
  snd (strconv.parseUint_loop bs n) <> None.
Proof.
  revert n. induction bs as [| b bs IH]; intros n Hd.
  - discriminate Hd.
  - cbn [forallb] in Hd. cbn [strconv.parseUint_loop].
    unfold is_digit in Hd. unfold strconv.byte_0, strconv.byte_9.
    destruct ((48 <=? b) && (b <=? 57)) eqn:Eb.
    + cbn [andb] in Hd.
      destruct (strconv.parseUint_cutoff <=? n); [discriminate |].
      cbv zeta.
      destruct ((Int64.wrapu (Int64.wrapu (n * 10) + (b - 48)) <? Int64.wrapu (n * 10))
                || (Int64.max_unsigned <? Int64.wrapu (Int64.wrapu (n * 10) + (b - 48))));
        [discriminate |].
      apply IH. assumption.
    + discriminate.
Qed.

Lemma parseUint_loop_range (bs : list Z) (n : Z) :
  snd (strconv.parseUint_loop bs n) = Some ErrRange ->
  fst (strconv.parseUint_loop bs n) = Int64.max_unsigned.
Proof.
  revert n. induction bs as [| b bs IH]; intros n; cbn [strconv.parseUint_loop].
  - discriminate.
  - destruct ((strconv.byte_0 <=? b) && (b <=? strconv.byte_9)); [| discriminate].
    destruct (strconv.parseUint_cutoff <=? n); [reflexivity |].
    cbv zeta.
    match goal with |- context [if ?c then _ else _] => destruct c end;
      [reflexivity | apply IH].
Qed.

Lemma all_digits_false (bs : list Z) :
  all_digits bs = false -> bs = [] \/ forallb is_digit bs = false.
Proof. destruct bs; [left; reflexivity | right; assumption]. Qed.

Lemma ParseUint_not_digits (bs : list Z) :
  all_digits bs = false ->
  snd (strconv.ParseUint bs) = Some ErrSyntax
  \/ strconv.ParseUint bs = (Int64.max_unsigned, Some ErrRange).
Proof.
  intros H. destruct bs as [| b bs]; [left; reflexivity |].
  unfold strconv.ParseUint.
  pose proof (parseUint_loop_not_digits (b :: bs) 0 H) as Hne.
  pose proof (parseUint_loop_range (b :: bs) 0) as Hr.
  destruct (strconv.parseUint_loop (b :: bs) 0) as [un [[|] |]]; cbn [fst snd] in *.
  - left. reflexivity.
  - right. rewrite Hr; reflexivity.
  - contradiction.
Qed.

Lemma ParseInt_not_numeric (s : string) :
  numeric s = false ->
  exists i f n e, strconv.ParseInt s = (i, Some (NumError f n e)).
Proof.
  unfold numeric, strconv.ParseInt.
  destruct (strconv.bytes_of s) as [| c rest]; intros H.
  - unfold strconv.syntaxError. eauto.
  - unfold strconv.byte_plus, strconv.byte_minus.
    rewrite (orb_comm (c =? 43) (c =? 45)).
    set (body := if (c =? 45) || (c =? 43) then rest else c :: rest) in *.
    assert (Hb : all_digits body = false)
      by (subst body; destruct ((c =? 45) || (c =? 43)); assumption).
    cbv zeta.
    destruct (ParseUint_not_digits body Hb) as [Hs | Hr].
    + destruct (strconv.ParseUint body) as [un e]. cbn [snd] in Hs. subst e.
      unfold strconv.syntaxError. eauto.
    + rewrite Hr. unfold strconv.rangeError.
      destruct (c =? 45); cbn; eauto.
Qed.

(** [Atoi] rejects every string that is not numeric. *)
Lemma Atoi_not_numeric (s : string) :
  numeric s = false -> snd (strconv.Atoi s) <> None.
Proof.
  intros H. unfold strconv.Atoi. cbv zeta.
  destruct ((0 <? Z.of_nat (List.length (strconv.bytes_of s)))
            && (Z.of_nat (List.length (strconv.bytes_of s)) <? 19)).
  - pose proof (bytes_of_range s) as Hr.
    unfold numeric in H.
    destruct (strconv.bytes_of s) as [| c rest]; [discriminate |].
    inversion Hr as [| ? ? Hc Hrest]; subst.
    unfold strconv.byte_minus, strconv.byte_plus.
    destruct ((c =? 45) || (c =? 43)).
    + destruct (all_digits_false rest H) as [-> | Hd]; [discriminate |].
      destruct (Z.of_nat (List.length rest) <? 1); cbn [andb]; [discriminate |].
      rewrite (atoi_loop_not_digits rest 0 Hrest Hd). discriminate.
    + cbn [andb].
      rewrite (atoi_loop_not_digits (c :: rest) 0 Hr H). discriminate.
  - destruct (ParseInt_not_numeric s H) as (i & f & n & e & ->). discriminate.
Qed.

Example numeric_examples :
  numeric "45" = true /\ numeric "-12" = true /\ numeric "+0" = true
  /\ numeric "" = false /\ numeric "-" = false /\ numeric "12s" = false
  /\ numeric "thirty" = false /\ numeric " 5" = false.
Proof. repeat split. Qed.


Lemma is_digit_range (b : Z) : is_digit b = true -> 0 <= b - 48 <= 9.
Proof. unfold is_digit. intros H. apply andb_prop in H. lia. Qed.

Lemma digits_from_mono (bs : list Z) (n : Z) :
  forallb is_digit bs = true -> 0 <= n -> n <= digits_from bs n.
Proof.
  revert n. induction bs as [| b bs IH]; intros n Hd Hn; cbn [digits_from fold_left].
  - lia.
  - cbn [forallb] in Hd. apply andb_prop in Hd. destruct Hd as [Hb Hd].
    apply is_digit_range in Hb.
    specialize (IH (n * 10 + (b - 48)) Hd). unfold digits_from in IH. lia.
Qed.

Lemma digits_from_bound (bs : list Z) (n : Z) :
  forallb is_digit bs = true -> 0 <= n ->
  digits_from bs n < (n + 1) * 10 ^ Z.of_nat (List.length bs).
Proof.
  revert n. induction bs as [| b bs IH]; intros n Hd Hn.
  - cbn. lia.
  - cbn [forallb] in Hd. apply andb_prop in Hd. destruct Hd as [Hb Hd].
    apply is_digit_range in Hb.
    cbn [digits_from fold_left List.length].
    specialize (IH (n * 10 + (b - 48)) Hd). unfold digits_from in IH.
    rewrite Nat2Z.inj_succ, Z.pow_succ_r by lia.
    assert (Hp : 0 < 10 ^ Z.of_nat (List.length bs)) by (apply Z.pow_pos_nonneg; lia).
    nia.
Qed.

(** The fast path computes the value of a sequence of digits that fits an
    [int]. *)
Lemma atoi_loop_digits (bs : list Z) (n : Z) :
  forallb is_digit bs = true -> 0 <= n ->
  digits_from bs n <= Int64.max_signed ->
  strconv.atoi_loop bs n = Some (digits_from bs n).
Proof.
  revert n. induction bs as [| b bs IH]; intros n Hd Hn Hmax.
  - reflexivity.
  - cbn [forallb] in Hd. apply andb_prop in Hd. destruct Hd as [Hb Hd].
    pose proof (is_digit_range b Hb) as Hr.
    cbn [strconv.atoi_loop digits_from fold_left] in *.
    unfold strconv.byte_sub, strconv.byte_0.
    rewrite Z.mod_small by lia.
    destruct (9 <? b - 48) eqn:E9; [apply Z.ltb_lt in E9; lia |].
    pose proof (digits_from_mono bs (n * 10 + (b - 48)) Hd) as Hm.
    unfold digits_from in Hm.
    change Int64.max_signed with 9223372036854775807 in Hmax.
    unfold Int64.add, Int64.mul.
    rewrite (wrap_id (n * 10)), (wrap_id (n * 10 + (b - 48)));
      try (unfold Int64.in_range;
           change Int64.min_signed with (-9223372036854775808);
           change Int64.max_signed with 9223372036854775807; lia).
    apply IH; [assumption | lia |].
    change Int64.max_signed with 9223372036854775807. exact Hmax.
Qed.

(** [ParseUint] computes the value of a sequence of digits that fits a
    [uint64]. *)
Lemma parseUint_loop_digits (bs : list Z) (n : Z) :
  forallb is_digit bs = true -> 0 <= n ->
  digits_from bs n <= Int64.max_unsigned ->
  strconv.parseUint_loop bs n = (digits_from bs n, None).
Proof.
  revert n. induction bs as [| b bs IH]; intros n Hd Hn Hmax.
  - reflexivity.
  - cbn [forallb] in Hd. apply andb_prop in Hd. destruct Hd as [Hb Hd].
    pose proof (is_digit_range b Hb) as Hr.
    pose proof (digits_from_mono bs (n * 10 + (b - 48)) Hd) as Hm.
    cbn [strconv.parseUint_loop digits_from fold_left] in *.
    unfold digits_from in Hm.
    unfold is_digit in Hb. unfold strconv.byte_0, strconv.byte_9. rewrite Hb.
    change Int64.max_unsigned with 18446744073709551615 in *.
    change strconv.parseUint_cutoff with 1844674407370955162.
    destruct (1844674407370955162 <=? n) eqn:Ec; [apply Z.leb_le in Ec; lia |].
    apply Z.leb_gt in Ec.
    cbv zeta. unfold Int64.wrapu.
    change Int64.modulus with 18446744073709551616.
    rewrite (Z.mod_small (n * 10)) by lia.
    rewrite (Z.mod_small (n * 10 + (b - 48))) by lia.
    destruct (n * 10 + (b - 48) <? n * 10) eqn:E1; [apply Z.ltb_lt in E1; lia |].
    destruct (18446744073709551615 <? n * 10 + (b - 48)) eqn:E2;
      [apply Z.ltb_lt in E2; lia |].
    cbn [orb]. apply IH; [assumption | lia | exact Hmax].
Qed.

Lemma atoi_loop_short (body : list Z) :
  forallb is_digit body = true ->
  (List.length body <= 18)%nat ->
  strconv.atoi_loop body 0 = Some (digits_from body 0)
  /\ 0 <= digits_from body 0 <= Int64.max_signed.
Proof.
  intros Hd Hlen.
  pose proof (digits_from_mono body 0 Hd) as Hm.
  pose proof (digits_from_bound body 0 Hd) as Hb.
  assert (Hp : 10 ^ Z.of_nat (List.length body) <= 10 ^ 18)
    by (apply Z.pow_le_mono_r; lia).
  change (10 ^ 18) with 1000000000000000000 in Hp.
  assert (Hr : 0 <= digits_from body 0 <= Int64.max_signed)
    by (change Int64.max_signed with 9223372036854775807; lia).
  split; [apply atoi_loop_digits; [assumption | lia | apply Hr] | exact Hr].
Qed.

Lemma ParseUint_digits (body : list Z) :
  all_digits body = true ->
  digits_from body 0 <= Int64.max_unsigned ->
  strconv.ParseUint body = (digits_from body 0, None).
Proof.
  destruct body as [| b body]; [discriminate |].
  intros Hd Hmax. unfold strconv.ParseUint.
  apply parseUint_loop_digits; [exact Hd | lia | exact Hmax].
Qed.

Lemma all_digits_nonneg (body : list Z) :
  all_digits body = true -> 0 <= digits_from body 0.
Proof.
  destruct body as [| b body]; [discriminate |].
  intros Hd. apply (digits_from_mono (b :: body) 0 Hd). lia.
Qed.

(** The result of [ParseInt] on an unsigned value that fits, after the
    sign was picked off. *)
Lemma ParseInt_finish (s : string) (neg : bool) (un : Z) :
  0 <= un ->
  Int64.min_signed <= (if neg then - un else un) <= Int64.max_signed ->
  (let cutoff := Int64.half_modulus in
   if negb neg && (cutoff <=? un) then
     (cutoff - 1, Some (strconv.rangeError "ParseInt" s))
   else if neg && (cutoff <? un) then
     (- cutoff, Some (strconv.rangeError "ParseInt" s))
   else
     let n := Int64.wrap un in
     (if neg then Int64.neg n else n, None))
  = (if neg then - un else un, None).
Proof.
  intros Hun Hr. cbv zeta.
  change Int64.half_modulus with 9223372036854775808.
  change Int64.min_signed with (-9223372036854775808) in Hr.
  change Int64.max_signed with 9223372036854775807 in Hr.
  destruct neg; cbn [negb andb].
  - destruct (9223372036854775808 <? un) eqn:E; [apply Z.ltb_lt in E; lia |].
    apply Z.ltb_ge in E. f_equal.
    destruct (Z.eq_dec un 9223372036854775808) as [-> | Hne]; [reflexivity |].
    unfold Int64.neg.
    rewrite (wrap_id un), (wrap_id (- un)); try reflexivity;
      unfold Int64.in_range;
      change Int64.min_signed with (-9223372036854775808);
      change Int64.max_signed with 9223372036854775807; lia.
  - destruct (9223372036854775808 <=? un) eqn:E; [apply Z.leb_le in E; lia |].
    f_equal. apply wrap_id. unfold Int64.in_range.
    change Int64.min_signed with (-9223372036854775808);
      change Int64.max_signed with 9223372036854775807. lia.
Qed.

(** [Atoi] returns the value of every numeric string whose value fits an
    [int], without error. *)
Theorem Atoi_numeric (s : string) :
  numeric s = true ->
  Int64.min_signed <= decimal_value s <= Int64.max_signed ->
  strconv.Atoi s = (decimal_value s, None).
Proof.
  unfold numeric, decimal_value, strconv.Atoi, strconv.ParseInt. cbv zeta.
  destruct (strconv.bytes_of s) as [| c rest]; [discriminate |].
  unfold strconv.byte_minus, strconv.byte_plus.
  rewrite (orb_comm (c =? 43) (c =? 45)).
  set (signed := (c =? 45) || (c =? 43)).
  set (body := if signed then rest else c :: rest).
  set (neg := c =? 45).
  intros Hnum Hrange.
  assert (Hd : all_digits body = true) by (subst body; destruct signed; exact Hnum).
  assert (Hv : (if neg then - digits_from rest 0
                else if c =? 43 then digits_from rest 0
                     else digits_from (c :: rest) 0)
               = if neg then - digits_from body 0 else digits_from body 0).
  { subst body signed neg. destruct (c =? 45), (c =? 43); reflexivity. }
  rewrite Hv in *. clear Hv.
  pose proof (all_digits_nonneg body Hd) as Hnn.
  assert (Hlen : List.length (c :: rest) = (if signed then S (List.length body)
                                             else List.length body))
    by (subst body; destruct signed; reflexivity).
  destruct ((0 <? Z.of_nat (List.length (c :: rest)))
            && (Z.of_nat (List.length (c :: rest)) <? 19)) eqn:Efast.
  - apply andb_prop in Efast. destruct Efast as [_ E19]. apply Z.ltb_lt in E19.
    assert (Hshort : (List.length body <= 18)%nat)
      by (rewrite Hlen in E19; destruct signed; lia).
    assert (Hdd : forallb is_digit body = true)
      by (destruct body; [discriminate | exact Hd]).
    destruct (atoi_loop_short body Hdd Hshort) as [Hloop Hr].
    assert (Hne : (Z.of_nat (List.length body) <? 1) = false)
      by (destruct body; [discriminate | cbn [List.length]; apply Z.ltb_ge; lia]).
    rewrite Hne, andb_false_r, Hloop. f_equal.
    destruct neg; [| reflexivity].
    unfold Int64.neg. apply wrap_id. unfold Int64.in_range.
    change Int64.min_signed with (-9223372036854775808).
    change Int64.max_signed with 9223372036854775807 in *. lia.
  - assert (Hmax : digits_from body 0 <= Int64.max_unsigned).
    { change Int64.max_unsigned with 18446744073709551615.
      change Int64.min_signed with (-9223372036854775808) in Hrange.
      change Int64.max_signed with 9223372036854775807 in Hrange.
      destruct neg; lia. }
    rewrite (ParseUint_digits body Hd Hmax).
    pose proof (ParseInt_finish s neg (digits_from body 0) Hnn Hrange) as Hf.
    cbv zeta in Hf. rewrite Hf. reflexivity.
Qed.

Example decimal_value_examples :
  decimal_value "45" = 45 /\ decimal_value "-12" = -12 /\ decimal_value "+007" = 7.
Proof. repeat split. Qed.

(** [ParseUint] reports a range error on a sequence of digits whose value
    does not fit a [uint64]. *)
Lemma parseUint_loop_overflow (bs : list Z) (n : Z) :
  forallb is_digit bs = true -> 0 <= n <= Int64.max_unsigned ->
  Int64.max_unsigned < digits_from bs n ->
  strconv.parseUint_loop bs n = (Int64.max_unsigned, Some ErrRange).
Proof.
  revert n. induction bs as [| b bs IH]; intros n Hd Hn Hover.
  - unfold digits_from in Hover. cbn [fold_left] in Hover. lia.
  - cbn [forallb] in Hd. apply andb_prop in Hd. destruct Hd as [Hb Hd].
    pose proof (is_digit_range b Hb) as Hr.
    cbn [strconv.parseUint_loop digits_from fold_left] in *.
    unfold is_digit in Hb. unfold strconv.byte_0, strconv.byte_9. rewrite Hb.
    change strconv.parseUint_cutoff with 1844674407370955162.
    destruct (1844674407370955162 <=? n) eqn:Ec; [reflexivity |].
    apply Z.leb_gt in Ec. cbv zeta. unfold Int64.wrapu.
    change Int64.max_unsigned with 18446744073709551615 in *.
    change Int64.modulus with 18446744073709551616.
    rewrite (Z.mod_small (n * 10)) by lia.
    destruct (Z_lt_le_dec (n * 10 + (b - 48)) 18446744073709551616) as [Hfit | Hwrap].
    + rewrite (Z.mod_small (n * 10 + (b - 48))) by lia.
      destruct (n * 10 + (b - 48) <? n * 10) eqn:E1; [apply Z.ltb_lt in E1; lia |].
      destruct (18446744073709551615 <? n * 10 + (b - 48)) eqn:E2;
        [apply Z.ltb_lt in E2; lia |].
      cbn [orb]. apply IH; [assumption | lia | exact Hover].
    + replace ((n * 10 + (b - 48)) mod 18446744073709551616)
        with (n * 10 + (b - 48) - 18446744073709551616)
        by (apply (Z.mod_unique_pos _ _ 1); lia).
      destruct (n * 10 + (b - 48) - 18446744073709551616 <? n * 10) eqn:E1;
        [reflexivity | apply Z.ltb_ge in E1; lia].
Qed.

(** [Atoi] reports a range error on every numeric string whose value does
    not fit an [int]. *)
Theorem Atoi_out_of_range (s : string) :
  numeric s = true ->
  ~ (Int64.min_signed <= decimal_value s <= Int64.max_signed) ->
  snd (strconv.Atoi s) = Some (NumError "Atoi" s ErrRange).
Proof.
  intros Hnum Hout.
  assert (Hslow : (0 <? Z.of_nat (List.length (strconv.bytes_of s)))
                  && (Z.of_nat (List.length (strconv.bytes_of s)) <? 19) = false).
  { destruct ((0 <? Z.of_nat (List.length (strconv.bytes_of s)))
              && (Z.of_nat (List.length (strconv.bytes_of s)) <? 19)) eqn:Efast;
      [| reflexivity].
    exfalso. apply Hout.
    apply andb_prop in Efast. destruct Efast as [_ E19]. apply Z.ltb_lt in E19.
    unfold numeric in Hnum. unfold decimal_value.
    destruct (strconv.bytes_of s) as [| c rest]; [discriminate |].
    cbn [List.length] in E19.
    change Int64.min_signed with (-9223372036854775808).
    change Int64.max_signed with 9223372036854775807.
    destruct (c =? 45); [| destruct (c =? 43)]; cbn [orb] in Hnum.
    - assert (Hd : forallb is_digit rest = true)
        by (destruct rest; [discriminate | exact Hnum]).
      destruct (atoi_loop_short rest Hd) as [_ Hr]; [lia |].
      change Int64.max_signed with 9223372036854775807 in Hr. lia.
    - assert (Hd : forallb is_digit rest = true)
        by (destruct rest; [discriminate | exact Hnum]).
      destruct (atoi_loop_short rest Hd) as [_ Hr]; [lia |].
      change Int64.max_signed with 9223372036854775807 in Hr. lia.
    - destruct (atoi_loop_short (c :: rest) Hnum) as [_ Hr]; [cbn [List.length]; lia |].
      change Int64.max_signed with 9223372036854775807 in Hr. lia. }
  unfold strconv.Atoi. cbv zeta. rewrite Hslow.
  unfold numeric in Hnum. unfold decimal_value in Hout. unfold strconv.ParseInt.
  destruct (strconv.bytes_of s) as [| c rest]; [discriminate |].
  unfold strconv.byte_minus, strconv.byte_plus.
  rewrite (orb_comm (c =? 43) (c =? 45)).
  set (signed := (c =? 45) || (c =? 43)) in *.
  set (body := if signed then rest else c :: rest) in *.
  set (neg := c =? 45) in *.
  assert (Hd : all_digits body = true) by (subst body; destruct signed; exact Hnum).
  assert (Hv : (if neg then - digits_from rest 0
                else if c =? 43 then digits_from rest 0
                     else digits_from (c :: rest) 0)
               = if neg then - digits_from body 0 else digits_from body 0).
  { subst body signed neg. destruct (c =? 45), (c =? 43); reflexivity. }
  rewrite Hv in Hout. clear Hv.
  pose proof (all_digits_nonneg body Hd) as Hnn.
  change Int64.min_signed with (-9223372036854775808) in Hout.
  change Int64.max_signed with 9223372036854775807 in Hout.
  cbv zeta. change Int64.half_modulus with 9223372036854775808.
  destruct (Z_le_gt_dec (digits_from body 0) Int64.max_unsigned) as [Hfit | Hover].
  - rewrite (ParseUint_digits body Hd Hfit).
    destruct neg; cbn [negb andb].
    + destruct (9223372036854775808 <? digits_from body 0) eqn:E;
        [reflexivity | apply Z.ltb_ge in E; lia].
    + destruct (9223372036854775808 <=? digits_from body 0) eqn:E;
        [reflexivity | apply Z.leb_gt in E; lia].
  - assert (HP : strconv.ParseUint body = (Int64.max_unsigned, Some ErrRange)).
    { destruct body as [| b body']; [discriminate |].
      unfold strconv.ParseUint.
      apply parseUint_loop_overflow;
        [exact Hd | change Int64.max_unsigned with 18446744073709551615; lia | lia]. }
    rewrite HP. change Int64.max_unsigned with 18446744073709551615.
    destruct neg; reflexivity.
Qed.

(** [Atoi] succeeds exactly on the numeric strings whose value fits an
    [int], and returns that value. *)
Theorem Atoi_spec (s : string) (N : Z) :
  strconv.Atoi s = (N, None) <->
  parses_to s N /\ Int64.min_signed <= N <= Int64.max_signed.
Proof.
  unfold parses_to. split.
  - intros HA.
    destruct (numeric s) eqn:Hnum.
    + destruct (Z_le_dec Int64.min_signed (decimal_value s)) as [Hlo | Hlo];
        [destruct (Z_le_dec (decimal_value s) Int64.max_signed) as [Hhi | Hhi] |].
      * rewrite (Atoi_numeric s Hnum (conj Hlo Hhi)) in HA.
        injection HA as <-. auto.
      * assert (Hr : snd (strconv.Atoi s) = Some (NumError "Atoi" s ErrRange))
          by (apply Atoi_out_of_range; [exact Hnum | lia]).
        rewrite HA in Hr. discriminate Hr.
      * assert (Hr : snd (strconv.Atoi s) = Some (NumError "Atoi" s ErrRange))
          by (apply Atoi_out_of_range; [exact Hnum | lia]).
        rewrite HA in Hr. discriminate Hr.
    + exfalso. apply (Atoi_not_numeric s Hnum). rewrite HA. reflexivity.
  - intros [[Hnum <-] Hr]. apply Atoi_numeric; assumption.
Qed.

(** ** Runs *)

Ltac red_run :=
  cbn [run bind call perform result final trace calls map made pre
       event_of fst snd is_nil negb orb andb Wrap Wrapf app] in *.

(** One step of the exploration of the runs of a program: the next external
    call returns some result in some world, and the program branches on it. *)
Ltac explore_step :=
  match goal with
  | |- context [extern ?P ?R ?c ?w] =>
      let r := fresh "r" in
      let w' := fresh "w" in
      destruct (extern P R c w) as [r w']
  | |- context [strconv.Atoi ?v] =>
      let i := fresh "i" in
      let err := fresh "err" in
      let E := fresh "E" in
      destruct (strconv.Atoi v) as [i err] eqn:E
  | |- context [negb (is_nil ?x) || (?i =? 0)] =>
      let E := fresh "E" in destruct (negb (is_nil x) || (i =? 0)) eqn:E
  | |- context [is_nil ?x] => is_var x; destruct x
  | |- context [match ?x with pair _ _ => _ end] => is_var x; destruct x
  | |- context [match ?x with Some _ => _ | None => _ end] => is_var x; destruct x
  | |- context [String.eqb ?a ?b] =>
      let E := fresh "E" in destruct (String.eqb a b) eqn:E
  | |- context [Z.eqb ?a ?b] =>
      let E := fresh "E" in destruct (Z.eqb a b) eqn:E
  end.

Ltac explore := red_run; repeat (explore_step; red_run).

(** Running a program and then another is running their composition. *)
Lemma run_bind (P : Platform) {A B : Type} (p : Prog A) (f : A -> Prog B) (w : World P) :
  run P (bind p f) w =
  let o1 := run P p w in
  let o2 := run P (f (result o1)) (final o1) in
  {| result := result o2; final := final o2; trace := trace o1 ++ trace o2 |}.
Proof.
  revert w. induction p as [a | R c k IH]; intros w; simpl.
  - destruct (run P (f a) w); reflexivity.
  - destruct (perform P c w) as [r w']. rewrite IH.
    destruct (run P (k r) w'); reflexivity.
Qed.

(** ** [getSyncInterval] *)

(** What [getSyncInterval] returns, and whether it warns, is decided by the
    value [os.Getenv] returns alone. *)
Lemma getSyncInterval_run (P : Platform) (w : World P) :
  let v := os_Getenv P w "RESYNC_INTERVAL" in
  (result (run P getSyncInterval w),
   existsb is_warning (calls (run P getSyncInterval w))) =
  if negb (is_nil (snd (strconv.Atoi v))) || (fst (strconv.Atoi v) =? 0)
  then (ResyncInterval, true)
  else (time.mul (time.of_int (fst (strconv.Atoi v))) time.Second, false).
Proof.
  unfold getSyncInterval. explore; reflexivity.
Qed.

Lemma getSyncInterval_default (P : Platform) (w : World P) :
  snd (strconv.Atoi (os_Getenv P w "RESYNC_INTERVAL")) <> None
  \/ fst (strconv.Atoi (os_Getenv P w "RESYNC_INTERVAL")) = 0 ->
  result (run P getSyncInterval w) = ResyncInterval
  /\ existsb is_warning (calls (run P getSyncInterval w)) = true.
Proof.
  intros H. pose proof (getSyncInterval_run P w) as E. cbv zeta in E.
  assert (Hc : negb (is_nil (snd (strconv.Atoi (os_Getenv P w "RESYNC_INTERVAL"))))
               || (fst (strconv.Atoi (os_Getenv P w "RESYNC_INTERVAL")) =? 0) = true).
  { destruct H as [H | H].
    - destruct (snd (strconv.Atoi (os_Getenv P w "RESYNC_INTERVAL")));
        [reflexivity | contradiction].
    - rewrite H. apply orb_true_r. }
  rewrite Hc in E. injection E as E1 E2. auto.
Qed.

Lemma getSyncInterval_parsed (P : Platform) (w : World P) (N : Z) :
  strconv.Atoi (os_Getenv P w "RESYNC_INTERVAL") = (N, None) ->
  N <> 0 ->
  result (run P getSyncInterval w) = time.mul (time.of_int N) time.Second
  /\ existsb is_warning (calls (run P getSyncInterval w)) = false.
Proof.
  intros HA HN. pose proof (getSyncInterval_run P w) as E. cbv zeta in E.
  assert (Hc : negb (is_nil (snd (strconv.Atoi (os_Getenv P w "RESYNC_INTERVAL"))))
               || (fst (strconv.Atoi (os_Getenv P w "RESYNC_INTERVAL")) =? 0) = false).
  { rewrite HA. apply Z.eqb_neq in HN. cbn [fst snd is_nil negb orb]. exact HN. }
  rewrite Hc, HA in E. injection E as E1 E2. auto.
Qed.

Lemma os_Getenv_present (P : Platform) (w : World P) (key v : string) :
  environ P w key = Some v -> os_Getenv P w key = v.
Proof. unfold os_Getenv. intros ->. reflexivity. Qed.






(** A negative value can even wrap around to the 30 seconds of the default:
    (30 - 2^55) * 10^9 is 30 * 10^9 modulo 2^64. *)
Example getSyncInterval_negative_wraps_to_default :
  parses_to "-36028797018963938" (-36028797018963938)
  /\ result (run scripted getSyncInterval
               (healthy [("RESYNC_INTERVAL", "-36028797018963938")] ""))
     = ResyncInterval.
Proof. vm_compute. repeat split. Qed.



(** A value beyond the range of [int] does not parse, and the default is
    returned with a warning. *)
Lemma getSyncInterval_out_of_range (P : Platform) (w : World P) (v : string) :
  environ P w "RESYNC_INTERVAL" = Some v ->
  numeric v = true ->
  ~ (Int64.min_signed <= decimal_value v <= Int64.max_signed) ->
  result (run P getSyncInterval w) = ResyncInterval
  /\ existsb is_warning (calls (run P getSyncInterval w)) = true.
Proof.
  intros Hv Hnum Hout. apply getSyncInterval_default. left.
  rewrite (os_Getenv_present P w _ v Hv), (Atoi_out_of_range v Hnum Hout).
  discriminate.
Qed.


(** ** [getClusterConfig] *)

(** C3: with a non-empty path [getClusterConfig] makes the one call
    [BuildConfigFromFlags("", kubeconfig)] and returns what it returns, the
    error included, without falling back to the in-cluster configuration;
    with the empty path it logs and returns what [InClusterConfig] returns,
    the error included. *)
Theorem getClusterConfig_resolves (P : Platform) (w : World P) (kubeconfig : string) :
  (kubeconfig <> "" ->
   result (run P (getClusterConfig kubeconfig) w)
   = fst (extern P _ (BuildConfigFromFlags "" kubeconfig) w)
   /\ calls (run P (getClusterConfig kubeconfig) w)
      = [Ev.BuildConfigFromFlags "" kubeconfig
           (fst (result (run P (getClusterConfig kubeconfig) w)))
           (snd (result (run P (getClusterConfig kubeconfig) w)))])
  /\ (kubeconfig = "" ->
      result (run P (getClusterConfig kubeconfig) w)
      = fst (extern P _ InClusterConfig
               (snd (extern P _ (V2Info "Kubeconfig flag is empty") w)))
      /\ calls (run P (getClusterConfig kubeconfig) w)
         = [Ev.V2Info "Kubeconfig flag is empty";
            Ev.InClusterConfig
              (fst (result (run P (getClusterConfig kubeconfig) w)))
              (snd (result (run P (getClusterConfig kubeconfig) w)))]).
Proof.
  unfold getClusterConfig.
  destruct (String.eqb_spec kubeconfig "") as [-> | Hne]; cbn [negb];
    (split; [intros H | intros H]); try contradiction; try discriminate.
  - red_run.
    destruct (extern P unit (V2Info "Kubeconfig flag is empty") w) as [[] w1].
    red_run.
    destruct (extern P _ InClusterConfig w1) as [[cfg err] w2].
    split; reflexivity.
  - red_run.
    destruct (extern P _ (BuildConfigFromFlags "" kubeconfig) w) as [[cfg err] w1].
    split; reflexivity.
Qed.

Lemma getClusterConfig_resolves_witness :
  (result (run scripted (getClusterConfig "/etc/kube/config")
             (healthy [] "/etc/kube/config"))
   = (config_ref 1, None)
   /\ calls (run scripted (getClusterConfig "/etc/kube/config")
               (healthy [] "/etc/kube/config"))
      = [Ev.BuildConfigFromFlags "" "/etc/kube/config" (config_ref 1) None])
  /\ (result (run scripted (getClusterConfig "") (healthy [] ""))
      = (config_ref 2, None)
      /\ calls (run scripted (getClusterConfig "") (healthy [] ""))
         = [Ev.V2Info "Kubeconfig flag is empty";
            Ev.InClusterConfig (config_ref 2) None]).
Proof.
  split.
  - apply (proj1 (getClusterConfig_resolves scripted
                    (healthy [] "/etc/kube/config") "/etc/kube/config")).
    discriminate.
  - apply (proj2 (getClusterConfig_resolves scripted (healthy [] "") "")).
    reflexivity.
Defined.

(** ** [Start] *)

(** Case analysis on the membership of an event in an explicit list. *)
Ltac in_cases H :=
  cbn [In] in H;
  repeat match type of H with
         | _ \/ _ => destruct H as [H | H]
         end;
  try contradiction; try discriminate H.

Lemma split_cons_inv {A : Type} (x : A) (l before : list A) (c : A) (after : list A) :
  x :: l = before ++ c :: after ->
  (before = [] /\ c = x /\ after = l)
  \/ (exists b', before = x :: b' /\ l = b' ++ c :: after).
Proof.
  destruct before as [| y b']; cbn [app]; intros H; injection H as -> ->.
  - left. auto.
  - right. eauto.
Qed.

Lemma split_nil_inv {A : Type} (before : list A) (c : A) (after : list A) :
  [] = before ++ c :: after -> False.
Proof. destruct before; discriminate. Qed.

(** All the ways of splitting an explicit list around one of its elements. *)
Ltac split_list H :=
  repeat (apply split_cons_inv in H;
          destruct H as [(-> & -> & ->) | (? & -> & H)]);
  try (apply split_nil_inv in H; contradiction).

(** C4: when [getClusterConfig] returns an error, [Start] returns that error
    wrapped with "error building kubeconfig", and no client is constructed. *)
Theorem Start_aborts_on_config_error (P : Platform) (w : World P) :
  forall (call : Ev.Event) (cfg : Config) (cause : error),
    In call (calls (run P Start w)) ->
    cluster_config_result call = Some (cfg, Some cause) ->
    result (run P Start w) = Some (withMessage cause "error building kubeconfig")
    /\ existsb is_client_new (calls (run P Start w)) = false.
Proof.
  unfold Start, getSyncInterval, getClusterConfig. explore;
    intros xcall xcfg xcause Hin Hc; in_cases Hin; subst xcall;
    try discriminate Hc; injection Hc as <- <-; split; reflexivity.
Qed.

Lemma Start_aborts_on_config_error_witness :
  result (run scripted Start
            {| env := []; kubeconfig_value := "/nonexistent";
               flagSet_err := None;
               config_err := Some (ErrorString "stat /nonexistent: no such file or directory");
               kube_err := None; openebs_err := None; ndm_err := None;
               build_err := None; run_err := None |})
  = Some (withMessage (ErrorString "stat /nonexistent: no such file or directory")
            "error building kubeconfig")
  /\ existsb is_client_new
       (calls (run scripted Start
                 {| env := []; kubeconfig_value := "/nonexistent";
                    flagSet_err := None;
                    config_err := Some (ErrorString "stat /nonexistent: no such file or directory");
                    kube_err := None; openebs_err := None; ndm_err := None;
                    build_err := None; run_err := None |}))
     = false.
Proof.
  apply (Start_aborts_on_config_error scripted _
           (Ev.BuildConfigFromFlags "" "/nonexistent" (config_ref 1)
              (Some (ErrorString "stat /nonexistent: no such file or directory")))
           (config_ref 1)).
  - vm_compute. tauto.
  - reflexivity.
Defined.

(** The order of the start-up sequence: an informer factory is created only
    after the three clients were constructed without error, and [Start] is
    launched on an informer factory only after the builder chain completed. *)
Lemma Start_order (P : Platform) (w : World P) :
  forall (before : list Ev.Event) (call : Ev.Event) (after : list Ev.Event),
    calls (run P Start w) = before ++ call :: after ->
    (is_factory_new call = true ->
     exists cfg kc oc nc,
       In (Ev.kubernetesNewForConfig cfg kc None) before
       /\ In (Ev.clientsetNewForConfig cfg oc None) before
       /\ In (Ev.ndmclientsetNewForConfig cfg nc None) before)
    /\ (is_factory_start call = true -> builder_chain before).
Proof.
  unfold Start, getSyncInterval, getClusterConfig. explore;
    intros xbefore xcall xafter Hs; split_list Hs;
    (split; intros Hc; try discriminate Hc).
  all: match goal with
       | |- builder_chain _ =>
           unfold builder_chain; cbn [filter is_builder_step];
           do 14 eexists; reflexivity
       | |- _ => do 4 eexists; cbn [In]; intuition eauto
       end.
Qed.

(** C5: a failing client construction makes [Start] return the error
    wrapped with the description of the client family that failed, and no
    informer factory is created then; an informer factory is created only
    after the three clients were constructed without error. *)
Theorem Start_clients_before_informers (P : Platform) (w : World P) :
  (forall cfg kc cause,
      In (Ev.kubernetesNewForConfig cfg kc (Some cause)) (calls (run P Start w)) ->
      result (run P Start w)
      = Some (withMessage cause "error building kubernetes clientset")
      /\ existsb is_factory_new (calls (run P Start w)) = false)
  /\ (forall cfg oc cause,
         In (Ev.clientsetNewForConfig cfg oc (Some cause)) (calls (run P Start w)) ->
         result (run P Start w)
         = Some (withMessage cause "error building openebs clientset")
         /\ existsb is_factory_new (calls (run P Start w)) = false)
  /\ (forall cfg nc cause,
         In (Ev.ndmclientsetNewForConfig cfg nc (Some cause)) (calls (run P Start w)) ->
         result (run P Start w)
         = Some (withMessage cause "error building ndm clientset")
         /\ existsb is_factory_new (calls (run P Start w)) = false)
  /\ (forall before call after,
         calls (run P Start w) = before ++ call :: after ->
         is_factory_new call = true ->
         exists cfg kc oc nc,
           In (Ev.kubernetesNewForConfig cfg kc None) before
           /\ In (Ev.clientsetNewForConfig cfg oc None) before
           /\ In (Ev.ndmclientsetNewForConfig cfg nc None) before).
Proof.
  assert (Hfail :
    forall call cause,
      In call (calls (run P Start w)) ->
      (exists cfg kc, call = Ev.kubernetesNewForConfig cfg kc (Some cause))
      \/ (exists cfg oc, call = Ev.clientsetNewForConfig cfg oc (Some cause))
      \/ (exists cfg nc, call = Ev.ndmclientsetNewForConfig cfg nc (Some cause)) ->
      result (run P Start w)
      = Some (withMessage cause
                match call with
                | Ev.kubernetesNewForConfig _ _ _ => "error building kubernetes clientset"
                | Ev.clientsetNewForConfig _ _ _ => "error building openebs clientset"
                | _ => "error building ndm clientset"
                end)
      /\ existsb is_factory_new (calls (run P Start w)) = false).
  { unfold Start, getSyncInterval, getClusterConfig. explore;
      intros xcall xcause Hin Hc; in_cases Hin; subst xcall;
      destruct Hc as [(? & ? & Hc) | [(? & ? & Hc) | (? & ? & Hc)]];
      try discriminate Hc; injection Hc as <- <- <-; split; reflexivity. }
  refine (conj _ (conj _ (conj _ _))).
  - intros cfg kc cause H.
    exact (Hfail _ cause H (or_introl (ex_intro _ cfg (ex_intro _ kc eq_refl)))).
  - intros cfg oc cause H.
    exact (Hfail _ cause H
             (or_intror (or_introl (ex_intro _ cfg (ex_intro _ oc eq_refl))))).
  - intros cfg nc cause H.
    exact (Hfail _ cause H
             (or_intror (or_intror (ex_intro _ cfg (ex_intro _ nc eq_refl))))).
  - intros before call after Hs. apply (proj1 (Start_order P w before call after Hs)).
Qed.

Lemma Start_clients_before_informers_witness :
  (result (run scripted Start (fails_at 2 (ErrorString "no kubernetes")))
   = Some (withMessage (ErrorString "no kubernetes") "error building kubernetes clientset")
   /\ existsb is_factory_new
        (calls (run scripted Start (fails_at 2 (ErrorString "no kubernetes")))) = false)
  /\ (result (run scripted Start (fails_at 3 (ErrorString "no openebs")))
      = Some (withMessage (ErrorString "no openebs") "error building openebs clientset")
      /\ existsb is_factory_new
           (calls (run scripted Start (fails_at 3 (ErrorString "no openebs")))) = false)
  /\ (result (run scripted Start (fails_at 4 (ErrorString "no ndm")))
      = Some (withMessage (ErrorString "no ndm") "error building ndm clientset")
      /\ existsb is_factory_new
           (calls (run scripted Start (fails_at 4 (ErrorString "no ndm")))) = false)
  /\ (exists cfg kc oc nc,
         In (Ev.kubernetesNewForConfig cfg kc None)
           (firstn 12 (calls (run scripted Start (healthy [] ""))))
         /\ In (Ev.clientsetNewForConfig cfg oc None)
              (firstn 12 (calls (run scripted Start (healthy [] ""))))
         /\ In (Ev.ndmclientsetNewForConfig cfg nc None)
              (firstn 12 (calls (run scripted Start (healthy [] ""))))).
Proof.
  refine (conj _ (conj _ (conj _ _))).
  - apply (proj1 (Start_clients_before_informers scripted
                    (fails_at 2 (ErrorString "no kubernetes")))
             (config_ref 2) (kubeClient_ref 1)).
    vm_compute. tauto.
  - apply (proj1 (proj2 (Start_clients_before_informers scripted
                           (fails_at 3 (ErrorString "no openebs"))))
             (config_ref 2) (openebsClient_ref 1)).
    vm_compute. tauto.
  - apply (proj1 (proj2 (proj2 (Start_clients_before_informers scripted
                                  (fails_at 4 (ErrorString "no ndm")))))
             (config_ref 2) (ndmClient_ref 1)).
    vm_compute. tauto.
  - apply (proj2 (proj2 (proj2 (Start_clients_before_informers scripted
                                  (healthy [] ""))))
             (firstn 12 (calls (run scripted Start (healthy [] ""))))
             (Ev.kubeNewSharedInformerFactory (kubeClient_ref 1) ResyncInterval
                (kubeFactory_ref 1))
             (skipn 13 (calls (run scripted Start (healthy [] ""))))).
    + vm_compute. reflexivity.
    + reflexivity.
Defined.

(** C1: [Start] is launched on an informer factory only after the builder
    chain, [withEventHandler] included, was run to its end and [Build]
    returned without error; when [Build] returns an error, [Start] returns it
    wrapped and launches [Start] on neither informer factory. *)
Theorem Start_informers_started_after_build (P : Platform) (w : World P) :
  (forall before call after,
      calls (run P Start w) = before ++ call :: after ->
      is_factory_start call = true ->
      builder_chain before)
  /\ (forall cb ctl cause,
         In (Ev.Build cb ctl (Some cause)) (calls (run P Start w)) ->
         result (run P Start w)
         = Some (withMessage cause "error building controller instance")
         /\ existsb is_factory_start (calls (run P Start w)) = false).
Proof.
  split.
  - intros before call after Hs. apply (proj2 (Start_order P w before call after Hs)).
  - unfold Start, getSyncInterval, getClusterConfig. explore;
      intros xcb xctl xcause Hin; in_cases Hin;
      injection Hin as <- <- <-; split; reflexivity.
Qed.

Lemma Start_informers_started_after_build_witness :
  builder_chain (firstn 26 (calls (run scripted Start (healthy [] ""))))
  /\ (result (run scripted Start (fails_at 5 (ErrorString "missing lister")))
      = Some (withMessage (ErrorString "missing lister")
                "error building controller instance")
      /\ existsb is_factory_start
           (calls (run scripted Start (fails_at 5 (ErrorString "missing lister"))))
         = false).
Proof.
  split.
  - apply (proj1 (Start_informers_started_after_build scripted (healthy [] ""))
             (firstn 26 (calls (run scripted Start (healthy [] ""))))
             (Ev.goKubeFactoryStart (kubeFactory_ref 1) (stopCh_ref 1))
             (skipn 27 (calls (run scripted Start (healthy [] ""))))).
    + vm_compute. reflexivity.
    + reflexivity.
  - apply (proj2 (Start_informers_started_after_build scripted
                    (fails_at 5 (ErrorString "missing lister")))
             (builder_ref 8) (controller_ref 1)).
    vm_compute. tauto.
Defined.

(** C6: on the fully successful start-up path the last call of [Start] is
    [controller.Run] with 2 workers and the stop channel that
    [SetupSignalHandler] returned, on the controller that [Build] returned,
    and [Start] returns exactly what this call returns. *)
Theorem Start_returns_Run (P : Platform) (w : World P) :
  startup_succeeded (calls (run P Start w)) ->
  exists ch cb ctl,
    In (Ev.SetupSignalHandler ch) (calls (run P Start w))
    /\ In (Ev.Build cb ctl None) (calls (run P Start w))
    /\ last (calls (run P Start w)) Ev.InitFlags
       = Ev.controllerRun ctl 2 ch (result (run P Start w)).
Proof.
  unfold startup_succeeded, Start, getSyncInterval, getClusterConfig. explore;
    intros (_ & _ & _ & _ & xcb & xctl & Hin); in_cases Hin;
    injection Hin as <- <-;
    do 3 eexists; cbn [In last];
    (split; [left; reflexivity | split; [| reflexivity]]);
    repeat (first [left; reflexivity | right]).
Qed.

Lemma Start_returns_Run_witness :
  exists ch cb ctl,
    In (Ev.SetupSignalHandler ch)
      (calls (run scripted Start (fails_at 6 (ErrorString "cache never synced"))))
    /\ In (Ev.Build cb ctl None)
         (calls (run scripted Start (fails_at 6 (ErrorString "cache never synced"))))
    /\ last (calls (run scripted Start (fails_at 6 (ErrorString "cache never synced"))))
         Ev.InitFlags
       = Ev.controllerRun ctl 2 ch
           (result (run scripted Start (fails_at 6 (ErrorString "cache never synced")))).
Proof.
  apply (Start_returns_Run scripted (fails_at 6 (ErrorString "cache never synced"))).
  unfold startup_succeeded.
  refine (conj _ (conj _ (conj _ (conj _ _)))).
  - exists (Ev.InClusterConfig (config_ref 2) None), (config_ref 2).
    split; [vm_compute; tauto | reflexivity].
  - exists (config_ref 2), (kubeClient_ref 1). vm_compute. tauto.
  - exists (config_ref 2), (openebsClient_ref 1). vm_compute. tauto.
  - exists (config_ref 2), (ndmClient_ref 1). vm_compute. tauto.
  - exists (builder_ref 8), (controller_ref 1). vm_compute. tauto.
Defined.


(** ** Determinism of the resync interval *)

Lemma getSyncInterval_calls (P : Platform) (w : World P) :
  let v := os_Getenv P w "RESYNC_INTERVAL" in
  calls (run P getSyncInterval w) =
  Ev.Getenv "RESYNC_INTERVAL" v
  :: (if negb (is_nil (snd (strconv.Atoi v))) || (fst (strconv.Atoi v) =? 0)
      then [Ev.Warningf
              "Incorrect resync interval %q obtained from env, defaulting to %q seconds"
              (fst (strconv.Atoi v)) ResyncInterval]
      else []).
Proof.
  unfold getSyncInterval. explore; reflexivity.
Qed.

Lemma os_Getenv_ext (P1 : Platform) (w1 : World P1) (P2 : Platform) (w2 : World P2)
    (key : string) :
  environ P1 w1 key = environ P2 w2 key ->
  os_Getenv P1 w1 key = os_Getenv P2 w2 key.
Proof. unfold os_Getenv. intros ->. reflexivity. Qed.

(** C10: [getSyncInterval] is a function of the value of [RESYNC_INTERVAL]:
    two runs, in any two worlds that agree on it, return the same duration and
    make the same calls.  Hence in a run of [Start] the two informer factories
    are created with the same resync interval whenever [RESYNC_INTERVAL] is
    the same in the two worlds in which the environment is read. *)
Theorem getSyncInterval_deterministic :
  (forall (P1 : Platform) (w1 : World P1) (P2 : Platform) (w2 : World P2),
      environ P1 w1 "RESYNC_INTERVAL" = environ P2 w2 "RESYNC_INTERVAL" ->
      result (run P1 getSyncInterval w1) = result (run P2 getSyncInterval w2)
      /\ calls (run P1 getSyncInterval w1) = calls (run P2 getSyncInterval w2))
  /\ (forall (P : Platform) (w w1 w2 : World P) kc d1 f1 oc d2 f2,
         getenv_worlds (trace (run P Start w)) = [w1; w2] ->
         environ P w1 "RESYNC_INTERVAL" = environ P w2 "RESYNC_INTERVAL" ->
         In (Ev.kubeNewSharedInformerFactory kc d1 f1) (calls (run P Start w)) ->
         In (Ev.spcNewSharedInformerFactory oc d2 f2) (calls (run P Start w)) ->
         d1 = d2).
Proof.
  split.
  - intros P1 w1 P2 w2 H. apply os_Getenv_ext in H.
    pose proof (getSyncInterval_run P1 w1) as R1.
    pose proof (getSyncInterval_run P2 w2) as R2.
    pose proof (getSyncInterval_calls P1 w1) as C1.
    pose proof (getSyncInterval_calls P2 w2) as C2.
    cbv zeta in R1, R2, C1, C2.
    rewrite H in R1, C1. rewrite <- R2 in R1. rewrite <- C2 in C1.
    split; [exact (f_equal fst R1) | exact C1].
  - intros P w. unfold Start, getSyncInterval, getClusterConfig. explore;
      intros xw1 xw2 xkc xd1 xf1 xoc xd2 xf2 Hw Henv Hk Hs;
      cbn [getenv_worlds flat_map made pre app] in Hw;
      try discriminate Hw;
      injection Hw as <- <-;
      apply os_Getenv_ext in Henv; rewrite Henv in *;
      repeat match goal with
             | H1 : strconv.Atoi ?v = _, H2 : strconv.Atoi ?v = _ |- _ =>
                 rewrite H1 in H2; injection H2 as <- <-
             end;
      in_cases Hk; injection Hk as <- <- <-;
      in_cases Hs; injection Hs as <- <- <-;
      congruence.
Qed.

Lemma getSyncInterval_deterministic_witness :
  (result (run scripted getSyncInterval
             (healthy [("HOME", "/root"); ("RESYNC_INTERVAL", "45")] "/x"))
   = result (run drifting getSyncInterval [("RESYNC_INTERVAL", "45")])
   /\ calls (run scripted getSyncInterval
               (healthy [("HOME", "/root"); ("RESYNC_INTERVAL", "45")] "/x"))
      = calls (run drifting getSyncInterval [("RESYNC_INTERVAL", "45")]))
  /\ time.seconds 45 = time.seconds 45.
Proof.
  split.
  - apply (proj1 getSyncInterval_deterministic scripted
             (healthy [("HOME", "/root"); ("RESYNC_INTERVAL", "45")] "/x")
             drifting [("RESYNC_INTERVAL", "45")]).
    reflexivity.
  - apply (proj2 getSyncInterval_deterministic scripted
             (healthy [("RESYNC_INTERVAL", "45")] "")
             (healthy [("RESYNC_INTERVAL", "45")] "")
             (healthy [("RESYNC_INTERVAL", "45")] "")
             (kubeClient_ref 1) (time.seconds 45) (kubeFactory_ref 1)
             (openebsClient_ref 1) (time.seconds 45) (spcFactory_ref 1)).
    + reflexivity.
    + reflexivity.
    + vm_compute. tauto.
    + vm_compute. tauto.
Defined.

(** When the environment changes between the two reads, the two informer
    factories can be created with different resync intervals. *)
Example Start_intervals_differ_when_environment_changes :
  In (Ev.kubeNewSharedInformerFactory (kubeClient_ref 1) (time.seconds 30)
        (kubeFactory_ref 1))
    (calls (run drifting Start []))
  /\ In (Ev.spcNewSharedInformerFactory (openebsClient_ref 1) (time.seconds 7)
           (spcFactory_ref 1))
       (calls (run drifting Start [])).
Proof. vm_compute. tauto. Qed.

(** The end-to-end scenario of the specification: empty kubeconfig path and
    [RESYNC_INTERVAL] unset. *)
Example Start_in_cluster_defaults :
  result (run scripted Start (healthy [] "")) = None
  /\ In (Ev.InClusterConfig (config_ref 2) None) (calls (run scripted Start (healthy [] "")))
  /\ In (Ev.kubeNewSharedInformerFactory (kubeClient_ref 1) (time.seconds 30)
           (kubeFactory_ref 1))
       (calls (run scripted Start (healthy [] "")))
  /\ last (calls (run scripted Start (healthy [] ""))) Ev.InitFlags
     = Ev.controllerRun (controller_ref 1) 2 (stopCh_ref 1) None.
Proof. vm_compute. tauto. Qed.

(** * Further properties of the start-up code *)

(** ** [getSyncInterval] *)

(** [getSyncInterval] takes the default, warning, in every case but one:
    it returns without a warning exactly when [RESYNC_INTERVAL] parses to an
    integer that is not zero and fits an [int]. *)
Theorem getSyncInterval_warns_iff (P : Platform) (w : World P) :
  (existsb is_warning (calls (run P getSyncInterval w)) = false <->
   exists N,
     parses_to (os_Getenv P w "RESYNC_INTERVAL") N
     /\ N <> 0
     /\ Int64.min_signed <= N <= Int64.max_signed)
  /\ (existsb is_warning (calls (run P getSyncInterval w)) = true ->
      result (run P getSyncInterval w) = ResyncInterval).
Proof.
  pose proof (getSyncInterval_run P w) as E. cbv zeta in E.
  destruct (strconv.Atoi (os_Getenv P w "RESYNC_INTERVAL")) as [i err] eqn:HA.
  cbn [fst snd] in E.
  split; [split |].
  - intros Hw. rewrite Hw in E.
    destruct err as [e |]; cbn [is_nil negb orb] in E; [discriminate E |].
    destruct (i =? 0) eqn:Hi; [discriminate E |].
    apply Z.eqb_neq in Hi. apply Atoi_spec in HA. destruct HA as [Hp Hr].
    exists i. auto.
  - intros (N & Hp & HN & Hr).
    assert (HA' : strconv.Atoi (os_Getenv P w "RESYNC_INTERVAL") = (N, None))
      by (apply Atoi_spec; auto).
    rewrite HA in HA'. injection HA' as -> ->.
    apply Z.eqb_neq in HN. cbn [is_nil negb orb] in E. rewrite HN in E.
    exact (f_equal snd E).
  - intros Hw. rewrite Hw in E.
    destruct (negb (is_nil err) || (i =? 0)); [| discriminate E].
    exact (f_equal fst E).
Qed.

Lemma getSyncInterval_warns_iff_witness :
  existsb is_warning
    (calls (run scripted getSyncInterval (healthy [("RESYNC_INTERVAL", "+090")] "")))
  = false
  /\ result (run scripted getSyncInterval (healthy [("RESYNC_INTERVAL", "5m")] ""))
     = ResyncInterval.
Proof.
  split.
  - apply (proj2 (proj1 (getSyncInterval_warns_iff scripted
                           (healthy [("RESYNC_INTERVAL", "+090")] "")))).
    exists 90. split; [split; reflexivity | split; [discriminate | split; discriminate]].
  - apply (proj2 (getSyncInterval_warns_iff scripted
                    (healthy [("RESYNC_INTERVAL", "5m")] ""))).
    reflexivity.
Defined.


(** The duration [getSyncInterval] returns is the requested number of
    seconds exactly for the values between -9223372036 and 9223372036 other
    than zero: zero gives the default, and beyond these bounds the value either
    does not fit an [int] and gives the default, or the multiplication by
    [time.Second] overflows. *)
Theorem getSyncInterval_exact_iff (P : Platform) (w : World P) (v : string) (N : Z) :
  environ P w "RESYNC_INTERVAL" = Some v ->
  parses_to v N ->
  (result (run P getSyncInterval w) = time.seconds N <->
   N <> 0 /\ -9223372036 <= N <= 9223372036).
Proof.
  intros Hv Hp. split.
  - intros Hres.
    destruct (Z.eq_dec N 0) as [-> | Hnz].
    + assert (HA : strconv.Atoi v = (0, None))
        by (apply Atoi_spec; split; [exact Hp | split; discriminate]).
      rewrite <- (os_Getenv_present P w _ v Hv) in HA.
      destruct (getSyncInterval_default P w) as [Hd _];
        [right; rewrite HA; reflexivity |].
      rewrite Hd in Hres. discriminate Hres.
    + split; [exact Hnz |].
      destruct (Z_le_dec Int64.min_signed N) as [Hlo | Hlo];
        [destruct (Z_le_dec N Int64.max_signed) as [Hhi | Hhi] |].
      * assert (HA : strconv.Atoi v = (N, None)) by (apply Atoi_spec; auto).
        rewrite <- (os_Getenv_present P w _ v Hv) in HA.
        destruct (getSyncInterval_parsed P w N HA Hnz) as [Hr _].
        pose proof (wrap_in_range (Int64.wrap N * time.Second)) as Hin.
        unfold time.mul, time.of_int, Int64.mul in Hr.
        rewrite <- Hr, Hres in Hin.
        unfold Int64.in_range, time.seconds in Hin.
        change Int64.min_signed with (-9223372036854775808) in Hin.
        change Int64.max_signed with 9223372036854775807 in Hin. lia.
      * destruct Hp as [Hnum Hval].
        destruct (getSyncInterval_out_of_range P w v Hv Hnum) as [Hd _];
          [rewrite Hval; lia |].
        rewrite Hd, ResyncInterval_seconds in Hres. unfold time.seconds in Hres.
        change Int64.max_signed with 9223372036854775807 in Hhi. lia.
      * destruct Hp as [Hnum Hval].
        destruct (getSyncInterval_out_of_range P w v Hv Hnum) as [Hd _];
          [rewrite Hval; lia |].
        rewrite Hd, ResyncInterval_seconds in Hres. unfold time.seconds in Hres.
        change Int64.min_signed with (-9223372036854775808) in Hlo. lia.
  - intros [Hnz Hb].
    assert (HA : strconv.Atoi v = (N, None)).
    { apply Atoi_spec. split; [exact Hp |].
      change Int64.min_signed with (-9223372036854775808).
      change Int64.max_signed with 9223372036854775807. lia. }
    rewrite <- (os_Getenv_present P w _ v Hv) in HA.
    destruct (getSyncInterval_parsed P w N HA Hnz) as [Hr _].
    rewrite Hr. apply seconds_exact. exact Hb.
Qed.

Lemma getSyncInterval_exact_iff_witness :
  result (run scripted getSyncInterval (healthy [("RESYNC_INTERVAL", "9223372036")] ""))
  = time.seconds 9223372036
  <-> 9223372036 <> 0 /\ -9223372036 <= 9223372036 <= 9223372036.
Proof.
  apply (getSyncInterval_exact_iff scripted
           (healthy [("RESYNC_INTERVAL", "9223372036")] "") "9223372036" 9223372036).
  - reflexivity.
  - split; reflexivity.
Defined.

(** ** [Start] *)

(** Search of an event in an explicit list. *)
Ltac in_list := cbn [In]; solve [repeat (first [left; reflexivity | right])].

(** When [flag.Set] fails, [Start] returns its error wrapped with "failed to
    set logtostderr flag" right away: the command line is not parsed and
    nothing else is called. *)
Theorem Start_aborts_on_flag_error (P : Platform) (w : World P) :
  forall name value cause,
    In (Ev.flagSet name value (Some cause)) (calls (run P Start w)) ->
    result (run P Start w)
    = Some (withMessage cause "failed to set logtostderr flag")
    /\ exists ch,
         calls (run P Start w)
         = [Ev.SetupSignalHandler ch; Ev.InitFlags;
            Ev.flagSet "logtostderr" "true" (Some cause)].
Proof.
  unfold Start, getSyncInterval, getClusterConfig. explore;
    intros xname xvalue xcause Hin; in_cases Hin;
    injection Hin as <- <- <-; split; [reflexivity | eexists; reflexivity].
Qed.

Lemma Start_aborts_on_flag_error_witness :
  result (run scripted Start (fails_at 0 (ErrorString "no such flag -logtostderr")))
  = Some (withMessage (ErrorString "no such flag -logtostderr")
            "failed to set logtostderr flag")
  /\ exists ch,
       calls (run scripted Start (fails_at 0 (ErrorString "no such flag -logtostderr")))
       = [Ev.SetupSignalHandler ch; Ev.InitFlags;
          Ev.flagSet "logtostderr" "true"
            (Some (ErrorString "no such flag -logtostderr"))].
Proof.
  apply (Start_aborts_on_flag_error scripted
           (fails_at 0 (ErrorString "no such flag -logtostderr"))
           "logtostderr" "true").
  vm_compute. tauto.
Defined.

(** [Start] stops at the first error: a call that returned an error is the
    last call of the run, and [Start] returns that error, as it is when it is
    the error of [controller.Run] and wrapped with a description otherwise. *)
Theorem Start_stops_at_first_error (P : Platform) (w : World P) :
  forall before call after cause,
    calls (run P Start w) = before ++ call :: after ->
    failure call = Some cause ->
    after = []
    /\ (result (run P Start w) = Some cause
        \/ exists description,
             result (run P Start w) = Some (withMessage cause description)).
Proof.
  unfold Start, getSyncInterval, getClusterConfig. explore;
    intros xbefore xcall xafter xcause Hs Hf; split_list Hs;
    try match type of Hf with
        | failure (Ev.controllerRun _ _ _ ?r) = _ => destruct r
        end;
    cbn [failure] in Hf; try discriminate Hf; injection Hf as <-;
    (split; [reflexivity | first [left; reflexivity | right; eexists; reflexivity]]).
Qed.

Lemma Start_stops_at_first_error_witness :
  skipn 9 (calls (run scripted Start (fails_at 3 (ErrorString "no openebs")))) = []
  /\ (result (run scripted Start (fails_at 3 (ErrorString "no openebs")))
      = Some (ErrorString "no openebs")
      \/ exists description,
           result (run scripted Start (fails_at 3 (ErrorString "no openebs")))
           = Some (withMessage (ErrorString "no openebs") description)).
Proof.
  apply (Start_stops_at_first_error scripted (fails_at 3 (ErrorString "no openebs"))
           (firstn 8 (calls (run scripted Start (fails_at 3 (ErrorString "no openebs")))))
           (Ev.clientsetNewForConfig (config_ref 2) (openebsClient_ref 1)
              (Some (ErrorString "no openebs")))).
  - vm_compute. reflexivity.
  - reflexivity.
Defined.

(** [Start] returns nil exactly when it reached [controller.Run] and
    [controller.Run] returned nil. *)
Theorem Start_nil_iff_Run_nil (P : Platform) (w : World P) :
  result (run P Start w) = None <->
  exists ctl ch,
    last (calls (run P Start w)) Ev.InitFlags = Ev.controllerRun ctl 2 ch None.
Proof.
  unfold Start, getSyncInterval, getClusterConfig. explore; cbn [last];
    (split; [intros H; try discriminate H; subst; do 2 eexists; reflexivity
            | intros (xctl & xch & H); try discriminate H;
              injection H as <- <- <-; reflexivity]).
Qed.

Lemma Start_nil_iff_Run_nil_witness :
  result (run scripted Start (healthy [] "")) = None.
Proof.
  apply (proj2 (Start_nil_iff_Run_nil scripted (healthy [] ""))).
  exists (controller_ref 1), (stopCh_ref 1). reflexivity.
Defined.

(** [Start] reads the [-kubeconfig] flag once, after the flags were
    initialised, [logtostderr] was set and the command line was parsed, and
    resolves the cluster configuration from the value it read: from that file
    when the value is not empty, from the in-cluster configuration when it
    is. *)
Theorem Start_config_from_flag (P : Platform) (w : World P) :
  forall v,
    In (Ev.kubeconfigFlag v) (calls (run P Start w)) ->
    exists ch rest,
      calls (run P Start w)
      = [Ev.SetupSignalHandler ch; Ev.InitFlags;
         Ev.flagSet "logtostderr" "true" None; Ev.flagParse;
         Ev.kubeconfigFlag v] ++ rest
      /\ (v <> "" ->
          exists cfg err rest', rest = Ev.BuildConfigFromFlags "" v cfg err :: rest')
      /\ (v = "" ->
          exists cfg err rest',
            rest = Ev.V2Info "Kubeconfig flag is empty"
                   :: Ev.InClusterConfig cfg err :: rest').
Proof.
  unfold Start, getSyncInterval, getClusterConfig. explore;
    intros xv Hin; in_cases Hin; injection Hin as <-;
    do 2 eexists; (split; [reflexivity |]);
    (split; intros Hv;
     first [ do 3 eexists; reflexivity
           | exfalso;
             match goal with
             | E : (_ =? "")%string = true |- _ =>
                 apply String.eqb_eq in E; contradiction
             | E : (_ =? "")%string = false |- _ =>
                 apply String.eqb_neq in E; contradiction
             end ]).
Qed.

Lemma Start_config_from_flag_witness :
  exists ch rest,
    calls (run scripted Start (healthy [] "/etc/kube/config"))
    = [Ev.SetupSignalHandler ch; Ev.InitFlags;
       Ev.flagSet "logtostderr" "true" None; Ev.flagParse;
       Ev.kubeconfigFlag "/etc/kube/config"] ++ rest
    /\ ("/etc/kube/config" <> "" ->
        exists cfg err rest',
          rest = Ev.BuildConfigFromFlags "" "/etc/kube/config" cfg err :: rest')
    /\ ("/etc/kube/config" = "" ->
        exists cfg err rest',
          rest = Ev.V2Info "Kubeconfig flag is empty"
                 :: Ev.InClusterConfig cfg err :: rest').
Proof.
  apply (Start_config_from_flag scripted (healthy [] "/etc/kube/config")).
  vm_compute. tauto.
Defined.

(** Every client constructor is given the configuration that the cluster
    configuration call of the same run returned without error. *)
Theorem Start_clients_share_config (P : Platform) (w : World P) :
  forall call cfg,
    In call (calls (run P Start w)) ->
    client_config call = Some cfg ->
    exists resolved,
      In resolved (calls (run P Start w))
      /\ cluster_config_result resolved = Some (cfg, None).
Proof.
  unfold Start, getSyncInterval, getClusterConfig. explore;
    intros xcall xcfg Hin Hc; in_cases Hin; subst xcall;
    cbn [client_config] in Hc; try discriminate Hc; injection Hc as ->;
    first [ exists (Ev.InClusterConfig xcfg None); split; [in_list | reflexivity]
          | eexists (Ev.BuildConfigFromFlags _ _ xcfg None);
            split; [in_list | reflexivity] ].
Qed.

Lemma Start_clients_share_config_witness :
  exists resolved,
    In resolved (calls (run scripted Start (fails_at 4 (ErrorString "no ndm"))))
    /\ cluster_config_result resolved = Some (config_ref 2, None).
Proof.
  apply (Start_clients_share_config scripted (fails_at 4 (ErrorString "no ndm"))
           (Ev.ndmclientsetNewForConfig (config_ref 2) (ndmClient_ref 1)
              (Some (ErrorString "no ndm")))).
  - vm_compute. tauto.
  - reflexivity.
Defined.

(** The informer factory [Start] is launched on is the one created earlier
    in the run: the kube factory for the first launch; for the second launch
    the factory of the cstor pool clusters, which is also the one the builder
    took its synced check, its lister and its event handler registration
    from. *)
Theorem Start_starts_created_factories (P : Platform) (w : World P) :
  (forall f ch,
      In (Ev.goKubeFactoryStart f ch) (calls (run P Start w)) ->
      exists kc d, In (Ev.kubeNewSharedInformerFactory kc d f) (calls (run P Start w)))
  /\ (forall f ch,
         In (Ev.goSpcFactoryStart f ch) (calls (run P Start w)) ->
         exists oc d cb1 cb1' cb2 cb2' cb3 cb3',
           In (Ev.spcNewSharedInformerFactory oc d f) (calls (run P Start w))
           /\ In (Ev.withCSPCSynced cb1 f cb1') (calls (run P Start w))
           /\ In (Ev.withCSPCLister cb2 f cb2') (calls (run P Start w))
           /\ In (Ev.withEventHandler cb3 f cb3') (calls (run P Start w))).
Proof.
  unfold Start, getSyncInterval, getClusterConfig. explore;
    (refine (conj _ _);
     [ intros xf xch Hin; in_cases Hin; injection Hin as <- <-;
       do 2 eexists; in_list
     | intros xf xch Hin; in_cases Hin; injection Hin as <- <-;
       do 8 eexists; (split; [in_list | split; [in_list | split; in_list]]) ]).
Qed.

Lemma Start_starts_created_factories_witness :
  (exists kc d,
      In (Ev.kubeNewSharedInformerFactory kc d (kubeFactory_ref 1))
        (calls (run scripted Start (healthy [] ""))))
  /\ (exists oc d cb1 cb1' cb2 cb2' cb3 cb3',
         In (Ev.spcNewSharedInformerFactory oc d (spcFactory_ref 1))
           (calls (run scripted Start (healthy [] "")))
         /\ In (Ev.withCSPCSynced cb1 (spcFactory_ref 1) cb1')
              (calls (run scripted Start (healthy [] "")))
         /\ In (Ev.withCSPCLister cb2 (spcFactory_ref 1) cb2')
              (calls (run scripted Start (healthy [] "")))
         /\ In (Ev.withEventHandler cb3 (spcFactory_ref 1) cb3')
              (calls (run scripted Start (healthy [] "")))).
Proof.
  split.
  - apply (proj1 (Start_starts_created_factories scripted (healthy [] ""))
             (kubeFactory_ref 1) (stopCh_ref 1)).
    vm_compute. tauto.
  - apply (proj2 (Start_starts_created_factories scripted (healthy [] ""))
             (spcFactory_ref 1) (stopCh_ref 1)).
    vm_compute. tauto.
Defined.

(** The clients handed on are the ones that were constructed: each informer
    factory is created from the client of its own family, and the builder is
    given the kubernetes client (also for its event recorder), the openebs
    client and the ndm client that the three constructors returned without
    error. *)
Theorem Start_hands_on_constructed_clients (P : Platform) (w : World P) :
  (forall kc,
      (exists d f, In (Ev.kubeNewSharedInformerFactory kc d f) (calls (run P Start w)))
      \/ (exists cb cb', In (Ev.withKubeClient cb kc cb') (calls (run P Start w)))
      \/ (exists cb cb', In (Ev.withRecorder cb kc cb') (calls (run P Start w))) ->
      exists cfg, In (Ev.kubernetesNewForConfig cfg kc None) (calls (run P Start w)))
  /\ (forall oc,
         (exists d f, In (Ev.spcNewSharedInformerFactory oc d f) (calls (run P Start w)))
         \/ (exists cb cb', In (Ev.withOpenEBSClient cb oc cb') (calls (run P Start w))) ->
         exists cfg, In (Ev.clientsetNewForConfig cfg oc None) (calls (run P Start w)))
  /\ (forall nc cb cb',
         In (Ev.withNDMClient cb nc cb') (calls (run P Start w)) ->
         exists cfg, In (Ev.ndmclientsetNewForConfig cfg nc None) (calls (run P Start w))).
Proof.
  unfold Start, getSyncInterval, getClusterConfig. explore;
    (refine (conj _ (conj _ _));
     [ intros xkc [(? & ? & Hin) | [(? & ? & Hin) | (? & ? & Hin)]];
       in_cases Hin; injection Hin as <- <- <-; eexists; in_list
     | intros xoc [(? & ? & Hin) | (? & ? & Hin)];
       in_cases Hin; injection Hin as <- <- <-; eexists; in_list
     | intros xnc xcb xcb' Hin;
       in_cases Hin; injection Hin as <- <- <-; eexists; in_list ]).
Qed.

(** [controller.Run] is called with 2 workers, as the last call of the run,
    right after the launch of the kube factory and then of the cstor pool
    cluster factory, all three with the same stop channel. *)
Theorem Start_launches_then_runs (P : Platform) (w : World P) :
  forall ctl threadiness ch err,
    In (Ev.controllerRun ctl threadiness ch err) (calls (run P Start w)) ->
    threadiness = 2
    /\ exists before kf sf,
         calls (run P Start w)
         = before ++ [Ev.goKubeFactoryStart kf ch; Ev.goSpcFactoryStart sf ch;
                      Ev.controllerRun ctl 2 ch err].
Proof.
  unfold Start, getSyncInterval, getClusterConfig. explore;
    intros xctl xn xch xerr Hin; in_cases Hin; injection Hin as <- <- <- <-;
    (split; [reflexivity |]);
    match goal with
    | |- exists before kf sf, ?L = _ =>
        exists (firstn (List.length L - 3) L); do 2 eexists; reflexivity
    end.
Qed.

Lemma Start_hands_on_constructed_clients_witness :
  (exists cfg,
      In (Ev.kubernetesNewForConfig cfg (kubeClient_ref 1) None)
        (calls (run scripted Start (healthy [] ""))))
  /\ (exists cfg,
         In (Ev.clientsetNewForConfig cfg (openebsClient_ref 1) None)
           (calls (run scripted Start (healthy [] ""))))
  /\ (exists cfg,
         In (Ev.ndmclientsetNewForConfig cfg (ndmClient_ref 1) None)
           (calls (run scripted Start (healthy [] "")))).
Proof.
  destruct (Start_hands_on_constructed_clients scripted (healthy [] ""))
    as (Hk & Ho & Hn).
  split; [| split].
  - apply (Hk (kubeClient_ref 1)). right. right.
    exists (builder_ref 5), (builder_ref 6). vm_compute. tauto.
  - apply (Ho (openebsClient_ref 1)). left.
    exists (time.seconds 30), (spcFactory_ref 1). vm_compute. tauto.
  - apply (Hn (ndmClient_ref 1) (builder_ref 2) (builder_ref 3)). vm_compute. tauto.
Defined.

Lemma Start_launches_then_runs_witness :
  2 = 2
  /\ exists before kf sf,
       calls (run scripted Start (fails_at 6 (ErrorString "leader lost")))
       = before ++ [Ev.goKubeFactoryStart kf (stopCh_ref 1);
                    Ev.goSpcFactoryStart sf (stopCh_ref 1);
                    Ev.controllerRun (controller_ref 1) 2 (stopCh_ref 1)
                      (Some (ErrorString "leader lost"))].
Proof.
  apply (Start_launches_then_runs scripted (fails_at 6 (ErrorString "leader lost"))
           (controller_ref 1) 2 (stopCh_ref 1) (Some (ErrorString "leader lost"))).
  vm_compute. tauto.
Defined.

(** ** [Start] and [getSyncInterval] together *)

Lemma getSyncInterval_outcome (P : Platform) (w : World P) (i : Z) (err : option error) :
  strconv.Atoi (os_Getenv P w "RESYNC_INTERVAL") = (i, err) ->
  result (run P getSyncInterval w)
  = (if negb (is_nil err) || (i =? 0) then ResyncInterval
     else time.mul (time.of_int i) time.Second)
  /\ calls (run P getSyncInterval w)
     = Ev.Getenv "RESYNC_INTERVAL" (os_Getenv P w "RESYNC_INTERVAL")
       :: (if negb (is_nil err) || (i =? 0)
           then [Ev.Warningf
                   "Incorrect resync interval %q obtained from env, defaulting to %q seconds"
                   i ResyncInterval]
           else []).
Proof.
  intros HA.
  pose proof (getSyncInterval_run P w) as R.
  pose proof (getSyncInterval_calls P w) as C.
  cbv zeta in R, C. rewrite HA in R, C. cbn [fst snd] in R, C.
  split; [| exact C].
  apply (f_equal fst) in R. cbn [fst] in R. rewrite R.
  destruct (negb (is_nil err) || (i =? 0)); reflexivity.
Qed.

(** The two runs of [getSyncInterval] inside a run of [Start], once the calls
    that precede the first of them are given: [sync] stands for
    [getSyncInterval], which the exploration left folded. *)
Ltac sync_runs_in_place sync :=
  do 3 eexists;
  (split; [cbn [getenv_worlds flat_map made pre app]; reflexivity |]);
  subst sync;
  repeat match goal with
         | E : strconv.Atoi (os_Getenv ?P ?w0 _) = (?i, ?e) |- _ =>
             destruct (getSyncInterval_outcome P w0 i e E) as [Er Ec];
             rewrite ?Er, ?Ec; clear Er Ec E
         end;
  repeat match goal with
         | E : negb (is_nil _) || (_ =? 0) = _ |- _ => rewrite ?E; clear E
         end;
  cbn [firstn app];
  split; reflexivity.

(** [Start] runs [getSyncInterval] twice, in full and in place: the calls of
    a run that creates the second informer factory contain the calls of
    [getSyncInterval] in the world of the first read of the environment, the
    creation of the kube factory with the duration that run returned, the
    calls of [getSyncInterval] in the world of the second read, and the
    creation of the second factory with the duration of that second run. *)
Theorem Start_composes_getSyncInterval (P : Platform) (w : World P) :
  forall oc d2 f2,
    In (Ev.spcNewSharedInformerFactory oc d2 f2) (calls (run P Start w)) ->
    exists w1 w2 before kc f1 after,
      getenv_worlds (trace (run P Start w)) = [w1; w2]
      /\ d2 = result (run P getSyncInterval w2)
      /\ calls (run P Start w)
         = before
           ++ calls (run P getSyncInterval w1)
           ++ Ev.kubeNewSharedInformerFactory kc (result (run P getSyncInterval w1)) f1
           :: calls (run P getSyncInterval w2)
           ++ Ev.spcNewSharedInformerFactory oc d2 f2 :: after.
Proof.
  remember getSyncInterval as sync eqn:Hsync.
  unfold Start, getSyncInterval, getClusterConfig. explore;
    intros xoc xd xf Hin;
    match type of Hin with
    | In _ ?L =>
        in_cases Hin; injection Hin as <- <- <-;
        do 2 eexists;
        first [ exists (firstn 9 L); solve [sync_runs_in_place sync]
              | exists (firstn 10 L); solve [sync_runs_in_place sync] ]
    end.
Qed.

Lemma Start_composes_getSyncInterval_witness :
  exists w1 w2 before kc f1 after,
    getenv_worlds (trace (run drifting Start [])) = [w1; w2]
    /\ time.seconds 7 = result (run drifting getSyncInterval w2)
    /\ calls (run drifting Start [])
       = before
         ++ calls (run drifting getSyncInterval w1)
         ++ Ev.kubeNewSharedInformerFactory kc (result (run drifting getSyncInterval w1)) f1
         :: calls (run drifting getSyncInterval w2)
         ++ Ev.spcNewSharedInformerFactory (openebsClient_ref 1) (time.seconds 7)
              (spcFactory_ref 1)
         :: after.
Proof.
  apply (Start_composes_getSyncInterval drifting []
           (openebsClient_ref 1) (time.seconds 7) (spcFactory_ref 1)).
  vm_compute. tauto.
Defined.



(** ** Edge cases of [getSyncInterval] *)

Lemma wrap_zero_iff (z : Z) : Int64.wrap z = 0 <-> (Int64.modulus | z).
Proof.
  unfold Int64.wrap.
  change Int64.half_modulus with 9223372036854775808.
  change Int64.modulus with 18446744073709551616.
  split.
  - intros H.
    pose proof (Z.div_mod (z + 9223372036854775808) 18446744073709551616) as D.
    exists ((z + 9223372036854775808) / 18446744073709551616). lia.
  - intros [k ->].
    rewrite Z.add_comm, Z.mod_add by lia. reflexivity.
Qed.

Lemma second_divides (N : Z) :
  (Int64.modulus | N * 1000000000) <-> (36028797018963968 | N).
Proof.
  change Int64.modulus with (36028797018963968 * 512).
  change 1000000000 with (1953125 * 512).
  rewrite Z.mul_assoc, Z.mul_divide_cancel_r by lia.
  split.
  - intros H. rewrite Z.mul_comm in H.
    apply (Z.gauss _ _ _ H). reflexivity.
  - intros H. apply Z.divide_mul_l. exact H.
Qed.

(** The guard against zero does not keep [getSyncInterval] from returning
    the zero duration: it returns zero exactly when [RESYNC_INTERVAL] parses
    to a non-zero [int] that is a multiple of 2^55, for then the product
    with [time.Second] is a multiple of 2^64. *)
Theorem getSyncInterval_zero_iff (P : Platform) (w : World P) :
  result (run P getSyncInterval w) = 0 <->
  exists N,
    parses_to (os_Getenv P w "RESYNC_INTERVAL") N
    /\ N <> 0
    /\ Int64.min_signed <= N <= Int64.max_signed
    /\ (2 ^ 55 | N).
Proof.
  destruct (strconv.Atoi (os_Getenv P w "RESYNC_INTERVAL")) as [i err] eqn:HA.
  destruct (getSyncInterval_outcome P w i err HA) as [-> _].
  change (2 ^ 55) with 36028797018963968.
  split.
  - destruct err as [e |]; cbn [is_nil negb orb]; [intros H; discriminate H |].
    destruct (i =? 0) eqn:Hi; [intros H; discriminate H |].
    apply Z.eqb_neq in Hi. intros H.
    apply Atoi_spec in HA. destruct HA as [Hp Hr].
    exists i. split; [exact Hp |]. split; [exact Hi |]. split; [exact Hr |].
    apply second_divides, wrap_zero_iff.
    unfold time.mul, time.of_int, Int64.mul in H.
    rewrite wrap_mul_wrap_l in H. exact H.
  - intros (N & Hp & HN & Hr & Hd).
    assert (HA' : strconv.Atoi (os_Getenv P w "RESYNC_INTERVAL") = (N, None))
      by (apply Atoi_spec; auto).
    rewrite HA in HA'. injection HA' as -> ->.
    apply Z.eqb_neq in HN. cbn [is_nil negb orb]. rewrite HN.
    unfold time.mul, time.of_int, Int64.mul.
    rewrite wrap_mul_wrap_l.
    apply wrap_zero_iff, second_divides. exact Hd.
Qed.

Lemma getSyncInterval_zero_iff_witness :
  result (run scripted getSyncInterval
            (healthy [("RESYNC_INTERVAL", "36028797018963968")] "")) = 0.
Proof.
  apply (proj2 (getSyncInterval_zero_iff scripted
                  (healthy [("RESYNC_INTERVAL", "36028797018963968")] ""))).
  exists 36028797018963968.
  split; [split; reflexivity |].
  split; [discriminate |].
  split; [split; discriminate |].
  exists 1. reflexivity.
Defined.

Lemma Atoi_error_value (s : string) :
  snd (strconv.Atoi s) <> None ->
  fst (strconv.Atoi s) = 0
  \/ fst (strconv.Atoi s) = Int64.max_signed
  \/ fst (strconv.Atoi s) = Int64.min_signed.
Proof.
  unfold strconv.Atoi, strconv.ParseInt. cbv zeta.
  destruct ((0 <? Z.of_nat (List.length (strconv.bytes_of s)))
            && (Z.of_nat (List.length (strconv.bytes_of s)) <? 19)).
  - destruct (strconv.bytes_of s) as [| c rest]; [left; reflexivity |].
    destruct (((c =? strconv.byte_minus) || (c =? strconv.byte_plus))
              && (Z.of_nat
                    (List.length
                       (if (c =? strconv.byte_minus) || (c =? strconv.byte_plus)
                        then rest else c :: rest)) <? 1));
      [left; reflexivity |].
    destruct (strconv.atoi_loop _ 0); [| left; reflexivity].
    cbn [snd]. intros H. contradiction.
  - destruct (strconv.bytes_of s) as [| c rest]; [left; reflexivity |].
    destruct (strconv.ParseUint _) as [un [[|] |]].
    + left. reflexivity.
    + destruct (negb (c =? strconv.byte_minus) && (Int64.half_modulus <=? un));
        [right; left; reflexivity |].
      destruct ((c =? strconv.byte_minus) && (Int64.half_modulus <? un));
        [right; right; reflexivity |].
      cbn [snd]. intros H. contradiction.
    + destruct (negb (c =? strconv.byte_minus) && (Int64.half_modulus <=? un));
        [right; left; reflexivity |].
      destruct ((c =? strconv.byte_minus) && (Int64.half_modulus <? un));
        [right; right; reflexivity |].
      cbn [snd]. intros H. contradiction.
Qed.

(** The warning of [getSyncInterval] reports the parsed integer, not the
    text of the variable: the number it is given is 0, or the bound of [int]
    an out-of-range value was clamped to; and a run that warns returns the
    default. *)
Theorem getSyncInterval_warning_reports (P : Platform) (w : World P) :
  forall format n dflt,
    In (Ev.Warningf format n dflt) (calls (run P getSyncInterval w)) ->
    (n = 0 \/ n = Int64.max_signed \/ n = Int64.min_signed)
    /\ n = fst (strconv.Atoi (os_Getenv P w "RESYNC_INTERVAL"))
    /\ dflt = ResyncInterval
    /\ result (run P getSyncInterval w) = ResyncInterval.
Proof.
  intros xformat xn xdflt Hin.
  pose proof (Atoi_error_value (os_Getenv P w "RESYNC_INTERVAL")) as Hv.
  destruct (strconv.Atoi (os_Getenv P w "RESYNC_INTERVAL")) as [i err] eqn:HA.
  destruct (getSyncInterval_outcome P w i err HA) as [-> Hc].
  rewrite Hc in Hin. clear Hc. cbn [fst snd] in Hv |- *.
  destruct err as [e |]; cbn [is_nil negb orb] in Hin |- *.
  - in_cases Hin. injection Hin as <- <- <-.
    split; [apply Hv; discriminate | auto].
  - destruct (i =? 0) eqn:Hi; in_cases Hin. injection Hin as <- <- <-.
    apply Z.eqb_eq in Hi. subst i. auto.
Qed.

Lemma getSyncInterval_warning_reports_witness :
  (Int64.max_signed = 0 \/ Int64.max_signed = Int64.max_signed
   \/ Int64.max_signed = Int64.min_signed)
  /\ Int64.max_signed
     = fst (strconv.Atoi
              (os_Getenv scripted
                 (healthy [("RESYNC_INTERVAL", "99999999999999999999")] "")
                 "RESYNC_INTERVAL"))
  /\ ResyncInterval = ResyncInterval
  /\ result (run scripted getSyncInterval
               (healthy [("RESYNC_INTERVAL", "99999999999999999999")] ""))
     = ResyncInterval.
Proof.
  apply (getSyncInterval_warning_reports scripted
           (healthy [("RESYNC_INTERVAL", "99999999999999999999")] "")
           "Incorrect resync interval %q obtained from env, defaulting to %q seconds"
           Int64.max_signed ResyncInterval).
  vm_compute. tauto.
Defined.

(** ** Where the result of [Start] comes from *)

(** Search with backtracking, for an event that has to satisfy a further
    condition. *)
Ltac in_list_such_that := cbn [In]; ((left; reflexivity) + (right; in_list_such_that)).

(** [controller.Run] is called on no controller but the one [Build]
    returned without error, and only on the fully successful start-up
    path. *)
Theorem Start_runs_only_built_controller (P : Platform) (w : World P) :
  forall ctl threadiness ch err,
    In (Ev.controllerRun ctl threadiness ch err) (calls (run P Start w)) ->
    (exists cb, In (Ev.Build cb ctl None) (calls (run P Start w)))
    /\ startup_succeeded (calls (run P Start w)).
Proof.
  unfold Start, getSyncInterval, getClusterConfig. explore;
    intros xctl xn xch xerr Hin; in_cases Hin; injection Hin as <- <- <- <-;
    (split; [eexists; in_list |]);
    unfold startup_succeeded;
    (split; [do 2 eexists; (split; [in_list_such_that | reflexivity]) |]);
    refine (conj _ (conj _ (conj _ _))); do 2 eexists; in_list.
Qed.

Lemma Start_runs_only_built_controller_witness :
  (exists cb,
      In (Ev.Build cb (controller_ref 1) None)
        (calls (run scripted Start (healthy [] "/etc/kube/config"))))
  /\ startup_succeeded (calls (run scripted Start (healthy [] "/etc/kube/config"))).
Proof.
  apply (Start_runs_only_built_controller scripted (healthy [] "/etc/kube/config")
           (controller_ref 1) 2 (stopCh_ref 1) None).
  vm_compute. tauto.
Defined.

(** Every error [Start] returns stems from the last call it made: it is the
    error of [controller.Run] as it is, or the error of the failing call
    wrapped with one of six descriptions. *)
Theorem Start_error_origin (P : Platform) (w : World P) :
  forall e,
    result (run P Start w) = Some e ->
    (exists ctl ch,
        last (calls (run P Start w)) Ev.InitFlags = Ev.controllerRun ctl 2 ch (Some e))
    \/ (exists cause description,
           e = withMessage cause description
           /\ failure (last (calls (run P Start w)) Ev.InitFlags) = Some cause
           /\ In description
                [ "failed to set logtostderr flag";
                  "error building kubeconfig";
                  "error building kubernetes clientset";
                  "error building openebs clientset";
                  "error building ndm clientset";
                  "error building controller instance" ]
           /\ forall ctl n ch err,
                ~ In (Ev.controllerRun ctl n ch err) (calls (run P Start w))).
Proof.
  unfold Start, getSyncInterval, getClusterConfig. explore;
    intros xe Hres; try discriminate Hres; first [injection Hres as <- | subst];
    cbn [last];
    first
      [ left; do 2 eexists; reflexivity
      | right; do 2 eexists;
        (split; [reflexivity |]);
        (split; [reflexivity |]);
        (split; [in_list |]);
        intros xctl xn xch xerr Hin; in_cases Hin ].
Qed.

Lemma Start_error_origin_witness :
  (exists ctl ch,
      last (calls (run scripted Start (fails_at 2 (ErrorString "no kube")))) Ev.InitFlags
      = Ev.controllerRun ctl 2 ch
          (Some (withMessage (ErrorString "no kube") "error building kubernetes clientset")))
  \/ (exists cause description,
         withMessage (ErrorString "no kube") "error building kubernetes clientset"
         = withMessage cause description
         /\ failure
              (last (calls (run scripted Start (fails_at 2 (ErrorString "no kube"))))
                 Ev.InitFlags)
            = Some cause
         /\ In description
              [ "failed to set logtostderr flag";
                "error building kubeconfig";
                "error building kubernetes clientset";
                "error building openebs clientset";
                "error building ndm clientset";
                "error building controller instance" ]
         /\ forall ctl n ch err,
              ~ In (Ev.controllerRun ctl n ch err)
                  (calls (run scripted Start (fails_at 2 (ErrorString "no kube"))))).
Proof.
  apply (Start_error_origin scripted (fails_at 2 (ErrorString "no kube"))
           (withMessage (ErrorString "no kube") "error building kubernetes clientset")).
  reflexivity.
Defined.
